(** * Compensation calculator: the profile-to-insights exchange and its
      derived view values, embedded from the TypeScript sources.

    Layout of the development:
    - [JsNumber]   ECMAScript numbers as IEEE 754 binary64 values;
    - [Js]         the few ECMAScript value forms the sources rely on
                   ([undefined], [null], truthiness, template literals);
    - [Types]      the profile and insights shapes;
    - [ResultsDashboard], [ResultsDashboardEntry]
                   the derived figures of the two dashboard revisions;
    - [Json]       JSON values and [JSON.parse];
    - [GenAI], [Runtime]
                   the client surface, and the effects of the adapter
                   (console, outbound requests, exceptions) as a small
                   state-and-error monad;
    - [GeminiService], [GeminiServiceEntry]
                   the two revisions of the exchange adapter;
    - [App], [FeedbackModal]
                   the handlers of the application shell and of the
                   feedback modal;
    - the statements, claim by claim (C1 to C10). *)

From Stdlib Require Import ZArith String Ascii List Bool SpecFloat Lia.
From Stdlib Require Import DecimalString.
Import ListNotations.

Set Warnings "-register-all".

Local Open Scope string_scope.
Local Open Scope Z_scope.

(* ================================================================== *)
(** ** ECMAScript numbers *)
(* ================================================================== *)

(** An ECMAScript Number is an IEEE 754 binary64 value with a single NaN.
    [spec_float] at precision 53 and maximal exponent 1024 is exactly that
    datatype, and its operations round to nearest, ties to even. *)
Module JsNumber.

Definition number : Type := spec_float.

Definition prec : Z := 53.
Definition emax : Z := 1024.

Definition NaN : number := S754_nan.
Definition Infinity : number := S754_infinity false.

(** The Number denoted by an integer literal of the source text. *)
Definition ofZ (z : Z) : number := binary_normalize prec emax z 0 false.

Definition add : number -> number -> number := SFadd prec emax.
Definition sub : number -> number -> number := SFsub prec emax.
Definition mul : number -> number -> number := SFmul prec emax.
Definition div : number -> number -> number := SFdiv prec emax.

(** [a > b], [a <= b] and [a === b] on Numbers; each is false as soon as
    one operand is NaN. *)
Definition gtb (a b : number) : bool := SFltb b a.
Definition leb (a b : number) : bool := SFleb a b.
Definition eqb (a b : number) : bool := SFeqb a b.

(** The global [isNaN] restricted to Numbers. *)
Definition isNaN (x : number) : bool :=
  match x with S754_nan => true | _ => false end.

Definition isZero (x : number) : bool :=
  match x with S754_zero _ => true | _ => false end.

Definition isFinite (x : number) : bool :=
  match x with S754_nan | S754_infinity _ => false | _ => true end.

(** ToBoolean on a Number: NaN, +0 and -0 are the falsy ones. *)
Definition truthy (x : number) : bool := negb (isNaN x || isZero x).

(** A Number is a binary64 datum: finite ones have a canonical mantissa. *)
Definition wf (x : number) : bool := valid_binary prec emax x.

(** Number::toString.  The special values are fixed by the language; the
    shortest round-tripping digit string of a positive finite value is
    left to [digits], so that every statement below holds whatever
    digit-generation algorithm the engine uses. *)
Definition toString (digits : number -> string) (x : number) : string :=
  match x with
  | S754_nan => "NaN"
  | S754_zero _ => "0"
  | S754_infinity false => "Infinity"
  | S754_infinity true => "-Infinity"
  | S754_finite false _ _ => digits x
  | S754_finite true m e => "-" ++ digits (S754_finite false m e)
  end.

End JsNumber.

Import JsNumber.

Declare Scope js_scope.
Delimit Scope js_scope with js.
Infix "+" := JsNumber.add : js_scope.
Infix "-" := JsNumber.sub : js_scope.
Infix "*" := JsNumber.mul : js_scope.
Infix "/" := JsNumber.div : js_scope.
Infix ">" := JsNumber.gtb : js_scope.

(* ================================================================== *)
(** ** ECMAScript values used by the sources *)
(* ================================================================== *)

Module Js.

(** A property that may be missing ([undefined]), [null], or present. *)
Inductive nullable (A : Type) : Type :=
| Undefined
| Null
| Val (a : A).
Arguments Undefined {A}.
Arguments Null {A}.
Arguments Val {A} a.

(** [v || d] on a possibly missing Number. *)
Definition numOr (v : nullable number) (d : number) : number :=
  match v with
  | Val x => if truthy x then x else d
  | _ => d
  end.

(** [v || d] on a possibly missing String: the empty string is falsy. *)
Definition strOr (v : nullable string) (d : string) : string :=
  match v with
  | Val EmptyString => d
  | Val s => s
  | _ => d
  end.

(** [v === s] against a string literal. *)
Definition strictEq (v : nullable string) (s : string) : bool :=
  match v with
  | Val s' => String.eqb s' s
  | _ => false
  end.

(** ToBoolean of a possibly missing boolean. *)
Definition truthyBool (v : nullable bool) : bool :=
  match v with Val b => b | _ => false end.

(** ToString inside a template literal. *)
Definition showStr (v : nullable string) : string :=
  match v with
  | Undefined => "undefined"
  | Null => "null"
  | Val s => s
  end.

Definition showNum (digits : number -> string) (v : nullable number)
  : string :=
  match v with
  | Undefined => "undefined"
  | Null => "null"
  | Val x => JsNumber.toString digits x
  end.

(** [Array.prototype.join]. *)
Fixpoint join (sep : string) (xs : list string) : string :=
  match xs with
  | [] => EmptyString
  | [x] => x
  | x :: rest => x ++ sep ++ join sep rest
  end.

End Js.

Import Js.

(* ================================================================== *)
(** ** Profile and insights shapes *)
(* ================================================================== *)

Module Types.

(** Modelled from the spec: the declaration file [types.ts] is not part of
    the sources.  The fields are the ones the service, the form and the
    dashboards read; every one of them may be missing at run time, which
    is why the sources guard them with [safeNum] and [||]. *)
Record UserProfile : Type := {
  currentRole : nullable string;
  industry : nullable string;
  location : nullable string;
  currency : nullable string;
  yearsExperience : nullable number;
  isEntryLevel : nullable bool;
  monthlyBaseSalary : nullable number;
  monthlyIncentive : nullable number;
  monthlyOvertime : nullable number;
  annualProfitShare : nullable number;
  festivalBonus : nullable number;
  providentFund : nullable number;
  gratuity : nullable number;
  expectedSalary : nullable number;
  education : nullable string;
  projectDetails : nullable string;
  userSkills : nullable string;
  benefits : nullable (list string)
}.

(** Modelled from the spec: the typed view of an insights object that the
    dashboards read ([types.ts] is not part of the sources). *)
Record SalaryRange : Type := {
  min : number;
  median : number;
  max : number
}.

Record MarketAnalysis : Type := {
  currentRoleMarketValue : SalaryRange;
  paymentStatus : string;
  percentile : number;
  gapAnalysis : string
}.

Record NextCareerMove : Type := {
  roleTitle : string;
  timeframeYears : string;
  probabilityScore : number;
  salaryRange : SalaryRange;
  requiredSkills : list string;
  switchChecklist : nullable (list string)
}.

Record Negotiation : Type := {
  whyYouArePerfect : string;
  whyYouDeserveIt : string;
  tips : list string
}.

Record CompensationInsights : Type := {
  marketAnalysis : MarketAnalysis;
  nextCareerMove : NextCareerMove;
  negotiation : Negotiation;
  verdictColor : string
}.

End Types.

Import Types.

(* ================================================================== *)
(** ** Dashboard derivations *)
(* ================================================================== *)

(** The currency-symbol chain is the same text in both dashboard revisions. *)
Definition currencySymbolOf (code : nullable string) : string :=
  if strictEq code "USD" then "$" else
  if strictEq code "EUR" then "€" else
  if strictEq code "GBP" then "£" else
  if strictEq code "BDT" then "৳" else
  if strictEq code "INR" then "₹" else "$".

(** [src/components/ResultsDashboard.tsx]. *)
Module ResultsDashboard.

Definition currentAnnual (userProfile : UserProfile) : number :=
  ((numOr (monthlyBaseSalary userProfile) (ofZ 0) * ofZ 12) +
   (numOr (monthlyIncentive userProfile) (ofZ 0) * ofZ 12) +
   (numOr (monthlyOvertime userProfile) (ofZ 0) * ofZ 12) +
   numOr (annualProfitShare userProfile) (ofZ 0) +
   numOr (festivalBonus userProfile) (ofZ 0) +
   numOr (providentFund userProfile) (ofZ 0) +
   numOr (gratuity userProfile) (ofZ 0))%js.

Definition currentMonthly (userProfile : UserProfile) : number :=
  (currentAnnual userProfile / ofZ 12)%js.

Definition nextAnnualMedian (results : CompensationInsights) : number :=
  median (salaryRange (nextCareerMove results)).

Definition nextMonthlyMedian (results : CompensationInsights) : number :=
  (nextAnnualMedian results / ofZ 12)%js.

Definition growthPercentage
    (results : CompensationInsights) (userProfile : UserProfile) : number :=
  (((nextAnnualMedian results - currentAnnual userProfile)
      / currentAnnual userProfile) * ofZ 100)%js.

Definition currencySymbol (userProfile : UserProfile) : string :=
  currencySymbolOf (currency userProfile).

End ResultsDashboard.

(** [src/unnamed/part_000]: the dashboard revision that knows the
    entry-level mode. *)
Module ResultsDashboardEntry.

Definition currentAnnual (userProfile : UserProfile) : number :=
  ((numOr (monthlyBaseSalary userProfile) (ofZ 0) * ofZ 12) +
   (numOr (monthlyIncentive userProfile) (ofZ 0) * ofZ 12) +
   (numOr (monthlyOvertime userProfile) (ofZ 0) * ofZ 12) +
   numOr (annualProfitShare userProfile) (ofZ 0) +
   numOr (festivalBonus userProfile) (ofZ 0) +
   numOr (providentFund userProfile) (ofZ 0) +
   numOr (gratuity userProfile) (ofZ 0))%js.

Definition currentMonthly (userProfile : UserProfile) : number :=
  (currentAnnual userProfile / ofZ 12)%js.

Definition targetEntryAnnual (results : CompensationInsights) : number :=
  median (currentRoleMarketValue (marketAnalysis results)).

Definition targetEntryMonthly (results : CompensationInsights) : number :=
  (targetEntryAnnual results / ofZ 12)%js.

Definition expectedAnnual (userProfile : UserProfile) : number :=
  (numOr (expectedSalary userProfile) (ofZ 0) * ofZ 12)%js.

Definition nextAnnualMedian (results : CompensationInsights) : number :=
  median (salaryRange (nextCareerMove results)).

Definition nextMonthlyMedian (results : CompensationInsights) : number :=
  (nextAnnualMedian results / ofZ 12)%js.

Definition growthPercentage
    (results : CompensationInsights) (userProfile : UserProfile) : number :=
  if (currentAnnual userProfile > ofZ 0)%js
  then (((nextAnnualMedian results - currentAnnual userProfile)
           / currentAnnual userProfile) * ofZ 100)%js
  else (((nextAnnualMedian results - targetEntryAnnual results)
           / targetEntryAnnual results) * ofZ 100)%js.

Definition currencySymbol (userProfile : UserProfile) : string :=
  currencySymbolOf (currency userProfile).

End ResultsDashboardEntry.

(* ================================================================== *)
(** ** JSON values and [JSON.parse] *)
(* ================================================================== *)

(** Strings are kept as their UTF-8 bytes.  [JSON.parse] is embedded as a
    deterministic pushdown automaton that reads the text one character at a
    time: a scanner state for the token under construction and a stack of
    the containers that are still open.  It is total by structural recursion
    on the text, and [None] stands for the [SyntaxError] of the engine. *)
Module Json.

Inductive value : Type :=
| JNull
| JBool (b : bool)
| JNumber (n : number)
| JString (s : string)
| JArray (items : list value)
| JObject (members : list (string * value)).

(** *** Objects: one binding per key, in creation order *)

Fixpoint setProp (k : string) (v : value) (ms : list (string * value))
  : list (string * value) :=
  match ms with
  | [] => [(k, v)]
  | (k', v') :: rest =>
      if String.eqb k' k then (k', v) :: rest
      else (k', v') :: setProp k v rest
  end.

Fixpoint getProp (k : string) (ms : list (string * value)) : option value :=
  match ms with
  | [] => None
  | (k', v') :: rest => if String.eqb k' k then Some v' else getProp k rest
  end.

(** [v.k] when [v] is an object that owns [k]. *)
Definition prop (k : string) (v : value) : option value :=
  match v with
  | JObject ms => getProp k ms
  | _ => None
  end.

Fixpoint path (ks : list string) (v : value) : option value :=
  match ks with
  | [] => Some v
  | k :: rest =>
      match prop k v with
      | Some v' => path rest v'
      | None => None
      end
  end.

(** *** Characters *)

Definition isWhitespace (c : ascii) : bool :=
  match c with
  | " "%char | "009"%char | "010"%char | "013"%char => true
  | _ => false
  end.

Definition isControl (c : ascii) : bool := (N_of_ascii c <? 32)%N.

Definition digitValue (c : ascii) : option N :=
  let n := N_of_ascii c in
  if ((48 <=? n) && (n <=? 57))%N then Some (n - 48)%N else None.

Definition hexValue (c : ascii) : option N :=
  let n := N_of_ascii c in
  if ((48 <=? n) && (n <=? 57))%N then Some (n - 48)%N
  else if ((97 <=? n) && (n <=? 102))%N then Some (n - 87)%N
  else if ((65 <=? n) && (n <=? 70))%N then Some (n - 55)%N
  else None.

Definition byte (n : N) : ascii := ascii_of_N n.

(** UTF-8 bytes of a code point (a lone surrogate gets its generalized
    three-byte form). *)
Definition utf8 (cp : N) : list ascii :=
  (if cp <? 128 then [byte cp]
   else if cp <? 2048 then
     [byte (192 + cp / 64); byte (128 + cp mod 64)]
   else if cp <? 65536 then
     [byte (224 + cp / 4096); byte (128 + (cp / 64) mod 64);
      byte (128 + cp mod 64)]
   else
     [byte (240 + cp / 262144); byte (128 + (cp / 4096) mod 64);
      byte (128 + (cp / 64) mod 64); byte (128 + cp mod 64)])%N.

Definition isHighSurrogate (u : N) : bool := ((55296 <=? u) && (u <=? 56319))%N.
Definition isLowSurrogate (u : N) : bool := ((56320 <=? u) && (u <=? 57343))%N.

(** *** Numbers *)

Fixpoint takeDigits (cs : list ascii) : list N * list ascii :=
  match cs with
  | [] => ([], [])
  | c :: rest =>
      match digitValue c with
      | Some d => let '(ds, tl) := takeDigits rest in (d :: ds, tl)
      | None => ([], cs)
      end
  end.

Definition digitsToZ (ds : list N) : Z :=
  fold_left (fun acc d => 10 * acc + Z.of_N d) ds 0.

(** The Number nearest to [m * 10 ^ e], ties to even. *)
Definition decimalToNumber (negative : bool) (m e : Z) : number :=
  match m with
  | Z0 => S754_zero negative
  | Zneg _ => S754_nan
  | Zpos p =>
      match e with
      | Zneg k =>
          SFdiv prec emax (S754_finite negative p 0)
                          (S754_finite false (Pos.pow 10 k) 0)
      | _ =>
          binary_normalize prec emax
            (if negative then - (m * 10 ^ e) else m * 10 ^ e) 0 false
      end
  end.

(** The integer part of the grammar: [0] or a non-zero digit followed by
    digits. *)
Definition validInt (ds : list N) : bool :=
  match ds with
  | [] => false
  | [_] => true
  | d :: _ => negb (d =? 0)%N
  end.

Definition parseExponent (cs : list ascii) : option Z :=
  match cs with
  | [] => Some 0
  | c :: rest =>
      if (Ascii.eqb c "e" || Ascii.eqb c "E")%bool then
        let '(negative, rest') :=
          match rest with
          | "-"%char :: r => (true, r)
          | "+"%char :: r => (false, r)
          | _ => (false, rest)
          end in
        match takeDigits rest' with
        | ((_ :: _) as ds, []) =>
            Some (if negative then - digitsToZ ds else digitsToZ ds)
        | _ => None
        end
      else None
  end.

Definition parseNumber (cs : list ascii) : option number :=
  let '(negative, cs1) :=
    match cs with
    | "-"%char :: r => (true, r)
    | _ => (false, cs)
    end in
  let '(ints, cs2) := takeDigits cs1 in
  if validInt ints then
    let '(fracs, cs3) :=
      match cs2 with
      | "."%char :: r => let '(fs, tl) := takeDigits r in (Some fs, tl)
      | _ => (None, cs2)
      end in
    match fracs with
    | Some [] => None
    | _ =>
        let fs := match fracs with Some fs => fs | None => [] end in
        match parseExponent cs3 with
        | Some ex =>
            Some (decimalToNumber negative (digitsToZ (ints ++ fs)%list)
                    (ex - Z.of_nat (List.length fs)))
        | None => None
        end
    end
  else None.

(** *** Tokens and the container stack *)

Inductive token : Type :=
| TLBrace | TRBrace | TLBracket | TRBracket | TColon | TComma
| TValue (v : value)
| TString (s : string).

Inductive frame : Type :=
| FArray (doneRev : list value)
| FObject (members : list (string * value))
| FMember (members : list (string * value)) (key : string).

Inductive mode : Type :=
| MValue
| MArrayStart
| MArrayNext
| MObjectStart
| MKey
| MColon (key : string)
| MObjectNext
| MDone (v : value).

Definition pstate : Type := (list frame * mode)%type.

(** A value is complete: it goes into the innermost open container. *)
Definition complete (v : value) (stack : list frame) : option pstate :=
  match stack with
  | [] => Some ([], MDone v)
  | FArray acc :: up => Some (FArray (v :: acc) :: up, MArrayNext)
  | FMember ms k :: up => Some (FObject (setProp k v ms) :: up, MObjectNext)
  | FObject _ :: _ => None
  end.

Definition startsValue (m : mode) : bool :=
  match m with MValue | MArrayStart => true | _ => false end.

Definition feed (t : token) (st : pstate) : option pstate :=
  let '(stack, m) := st in
  match t with
  | TValue v => if startsValue m then complete v stack else None
  | TString s =>
      match m with
      | MValue | MArrayStart => complete (JString s) stack
      | MObjectStart | MKey => Some (stack, MColon s)
      | _ => None
      end
  | TLBracket =>
      if startsValue m then Some (FArray [] :: stack, MArrayStart) else None
  | TLBrace =>
      if startsValue m then Some (FObject [] :: stack, MObjectStart) else None
  | TRBracket =>
      match m, stack with
      | (MArrayStart | MArrayNext), FArray acc :: up =>
          complete (JArray (rev acc)) up
      | _, _ => None
      end
  | TRBrace =>
      match m, stack with
      | (MObjectStart | MObjectNext), FObject ms :: up =>
          complete (JObject ms) up
      | _, _ => None
      end
  | TComma =>
      match m with
      | MArrayNext => Some (stack, MValue)
      | MObjectNext => Some (stack, MKey)
      | _ => None
      end
  | TColon =>
      match m, stack with
      | MColon k, FObject ms :: up => Some (FMember ms k :: up, MValue)
      | _, _ => None
      end
  end.

(** *** The scanner *)

Inductive lstate : Type :=
| LIdle
| LWord (accRev : list ascii)
| LString (accRev : list ascii) (hi : option N)
| LEscape (accRev : list ascii) (hi : option N)
| LUnicode (accRev : list ascii) (hi : option N) (remaining : nat) (unit : N).

Definition structural (c : ascii) : option token :=
  match c with
  | "{"%char => Some TLBrace
  | "}"%char => Some TRBrace
  | "["%char => Some TLBracket
  | "]"%char => Some TRBracket
  | ":"%char => Some TColon
  | ","%char => Some TComma
  | _ => None
  end.

(** A maximal run of non-delimiters is a literal name or a number. *)
Definition wordToken (accRev : list ascii) : option token :=
  let w := rev accRev in
  let s := string_of_list_ascii w in
  if String.eqb s "true" then Some (TValue (JBool true))
  else if String.eqb s "false" then Some (TValue (JBool false))
  else if String.eqb s "null" then Some (TValue JNull)
  else match parseNumber w with
       | Some n => Some (TValue (JNumber n))
       | None => None
       end.

(** A high surrogate that found no partner is written out on its own. *)
Definition flush (accRev : list ascii) (hi : option N) : list ascii :=
  match hi with
  | Some h => (rev (utf8 h) ++ accRev)%list
  | None => accRev
  end.

(** One UTF-16 code unit coming from a [\uXXXX] escape. *)
Definition pushUnit (accRev : list ascii) (hi : option N) (u : N)
  : list ascii * option N :=
  match hi with
  | Some h =>
      if isLowSurrogate u then
        ((rev (utf8 (65536 + (h - 55296) * 1024 + (u - 56320))%N)
            ++ accRev)%list, None)
      else if isHighSurrogate u then (flush accRev hi, Some u)
      else ((rev (utf8 u) ++ flush accRev hi)%list, None)
  | None =>
      if isHighSurrogate u then (accRev, Some u)
      else ((rev (utf8 u) ++ accRev)%list, None)
  end.

Definition simpleEscape (c : ascii) : option ascii :=
  match c with
  | "034"%char => Some "034"%char
  | "\"%char => Some "\"%char
  | "/"%char => Some "/"%char
  | "b"%char => Some "008"%char
  | "f"%char => Some "012"%char
  | "n"%char => Some "010"%char
  | "r"%char => Some "013"%char
  | "t"%char => Some "009"%char
  | _ => None
  end.

Definition state : Type := (lstate * pstate)%type.

(** A character met outside of any token. *)
Definition stepIdle (c : ascii) (ps : pstate) : option state :=
  if isWhitespace c then Some (LIdle, ps)
  else if Ascii.eqb c "034" then Some (LString [] None, ps)
  else match structural c with
       | Some t =>
           match feed t ps with
           | Some ps' => Some (LIdle, ps')
           | None => None
           end
       | None => Some (LWord [c], ps)
       end.

Definition isDelimiter (c : ascii) : bool :=
  isWhitespace c || Ascii.eqb c "034" ||
  match structural c with Some _ => true | None => false end.

Definition step (c : ascii) (st : state) : option state :=
  let '(ls, ps) := st in
  match ls with
  | LIdle => stepIdle c ps
  | LWord acc =>
      if isDelimiter c then
        match wordToken acc with
        | Some t =>
            match feed t ps with
            | Some ps' => stepIdle c ps'
            | None => None
            end
        | None => None
        end
      else Some (LWord (c :: acc), ps)
  | LString acc hi =>
      if Ascii.eqb c "034" then
        match feed (TString (string_of_list_ascii (rev (flush acc hi)))) ps with
        | Some ps' => Some (LIdle, ps')
        | None => None
        end
      else if Ascii.eqb c "\" then Some (LEscape acc hi, ps)
      else if isControl c then None
      else Some (LString (c :: flush acc hi) None, ps)
  | LEscape acc hi =>
      if Ascii.eqb c "u" then Some (LUnicode acc hi 4 0%N, ps)
      else match simpleEscape c with
           | Some c' => Some (LString (c' :: flush acc hi) None, ps)
           | None => None
           end
  | LUnicode acc hi remaining u =>
      match hexValue c, remaining with
      | Some d, S O =>
          let '(acc', hi') := pushUnit acc hi (16 * u + d)%N in
          Some (LString acc' hi', ps)
      | Some d, S k => Some (LUnicode acc hi k (16 * u + d)%N, ps)
      | _, _ => None
      end
  end.

Fixpoint run (cs : list ascii) (st : state) : option state :=
  match cs with
  | [] => Some st
  | c :: rest =>
      match step c st with
      | Some st' => run rest st'
      | None => None
      end
  end.

(** At the end of the text a pending word is closed, and exactly one
    value must have been read. *)
Definition finish (st : state) : option value :=
  let '(ls, ps) := st in
  let final :=
    match ls with
    | LIdle => Some ps
    | LWord acc =>
        match wordToken acc with
        | Some t => feed t ps
        | None => None
        end
    | _ => None
    end in
  match final with
  | Some ([], MDone v) => Some v
  | _ => None
  end.

Definition initial : state := (LIdle, ([], MValue)).

(** [JSON.parse(text)] without reviver. *)
Definition parse (text : string) : option value :=
  match run (list_ascii_of_string text) initial with
  | Some st => finish st
  | None => None
  end.

(** ToBoolean of a parsed value, as in [if (data)]. *)
Definition truthy (v : value) : bool :=
  match v with
  | JNull => false
  | JBool b => b
  | JNumber n => JsNumber.truthy n
  | JString EmptyString => false
  | _ => true
  end.

End Json.

(* ================================================================== *)
(** ** The generative-language client, as the service uses it *)
(* ================================================================== *)

Module GenAI.

(** The members of the client's [Type] enumeration that occur. *)
Inductive SchemaType : Type := OBJECT | ARRAY | STRING | NUMBER.

(** A response schema: the object literals handed to [responseSchema]. *)
Inductive Schema : Type :=
| mkSchema (type : SchemaType)
           (description : option string)
           (enum : option (list string))
           (properties : list (string * Schema))
           (required : list string)
           (items : option Schema).

Definition tNumber : Schema := mkSchema NUMBER None None [] [] None.
Definition tNumberD (d : string) : Schema :=
  mkSchema NUMBER (Some d) None [] [] None.
Definition tString : Schema := mkSchema STRING None None [] [] None.
Definition tStringD (d : string) : Schema :=
  mkSchema STRING (Some d) None [] [] None.
Definition tEnum (es : list string) : Schema :=
  mkSchema STRING None (Some es) [] [] None.
Definition tArray (it : Schema) : Schema :=
  mkSchema ARRAY None None [] [] (Some it).
Definition tArrayD (it : Schema) (d : string) : Schema :=
  mkSchema ARRAY (Some d) None [] [] (Some it).
Definition tObject (props : list (string * Schema)) (req : list string)
  : Schema :=
  mkSchema OBJECT None None props req None.

Record GenerateContentConfig : Type := {
  responseMimeType : string;
  responseSchema : Schema
}.

Record GenerateContentParameters : Type := {
  model : string;
  contents : string;
  config : GenerateContentConfig
}.

(** What awaiting [generateContent] yields: a response whose [text] may be
    missing, or a rejection. *)
Inductive exn : Type :=
| Error (message : string)      (* [new Error(message)] *)
| SyntaxError                   (* raised by [JSON.parse] *)
| Rejection (message : string). (* raised by the client *)

Inductive reply : Type :=
| Resolves (text : nullable string)
| Rejects (e : exn).

(** [e.message === s]; the message of a [SyntaxError] is the engine's
    description of the offending token, never one of the literals the
    sources compare with. *)
Definition messageIs (e : exn) (s : string) : bool :=
  match e with
  | Error m | Rejection m => String.eqb m s
  | SyntaxError => false
  end.

(** Conformance of a JSON value to a schema, as the service understands
    it: the declared type, the enumerated strings, the required keys, and
    recursively the declared properties and the array items.  The
    sources only declare schemas; they never evaluate this relation. *)
Fixpoint conforms (s : Schema) (v : Json.value) {struct s} : bool :=
  match s with
  | mkSchema t _ en props req its =>
      match t, v with
      | NUMBER, Json.JNumber _ => true
      | STRING, Json.JString x =>
          match en with
          | Some es => existsb (String.eqb x) es
          | None => true
          end
      | ARRAY, Json.JArray xs =>
          match its with
          | Some si => forallb (conforms si) xs
          | None => true
          end
      | OBJECT, Json.JObject ms =>
          forallb (fun k => match Json.getProp k ms with
                            | Some _ => true
                            | None => false
                            end) req
          && (fix declared (ps : list (string * Schema)) : bool :=
                match ps with
                | [] => true
                | (k, sk) :: rest =>
                    match Json.getProp k ms with
                    | Some vk => conforms sk vk
                    | None => true
                    end && declared rest
                end) props
      | _, _ => false
      end
  end.

End GenAI.

Import GenAI.

(* ================================================================== *)
(** ** Effects: console, outbound calls, exceptions *)
(* ================================================================== *)

Module Runtime.

(** What the code can observe from outside: the process environment and
    the remote service behind the client. *)
Record Env : Type := {
  API_KEY : nullable string;
  generateContent : string -> GenerateContentParameters -> reply
}.

Inductive logged : Type :=
| LogText (s : string)
| LogExn (label : string) (e : exn)
| LogJson (label : string) (v : Json.value).

(** What the code leaves behind: console lines and the requests that
    went out (each with the key the client was built with), oldest first. *)
Record World : Type := {
  console : list logged;
  calls : list (string * GenerateContentParameters)
}.

Definition quiet : World := {| console := []; calls := [] |}.

Inductive result (A : Type) : Type :=
| Returns (a : A)
| Throws (e : exn).
Arguments Returns {A} a.
Arguments Throws {A} e.

Definition M (A : Type) : Type := World -> result A * World.

Definition ret {A} (a : A) : M A := fun w => (Returns a, w).

Definition throw {A} (e : exn) : M A := fun w => (Throws e, w).

Definition bind {A B} (c : M A) (k : A -> M B) : M B :=
  fun w =>
    match c w with
    | (Returns a, w') => k a w'
    | (Throws e, w') => (Throws e, w')
    end.

Definition tryCatch {A} (body : M A) (handler : exn -> M A) : M A :=
  fun w =>
    match body w with
    | (Returns a, w') => (Returns a, w')
    | (Throws e, w') => handler e w'
    end.

Definition consoleError (l : logged) : M unit :=
  fun w =>
    (Returns tt, {| console := (console w ++ [l])%list; calls := calls w |}).

(** [await ai.models.generateContent(request)] on a client built with
    [apiKey]: the request goes out, then the reply decides. *)
Definition callGenerateContent (env : Env) (apiKey : string)
    (request : GenerateContentParameters) : M (nullable string) :=
  fun w =>
    let w' := {| console := console w;
                 calls := (calls w ++ [(apiKey, request)])%list |} in
    match generateContent env apiKey request with
    | Resolves text => (Returns text, w')
    | Rejects e => (Throws e, w')
    end.

(** [JSON.parse(text)], raising on malformed text. *)
Definition jsonParse (text : string) : M Json.value :=
  match Json.parse text with
  | Some v => ret v
  | None => throw SyntaxError
  end.

End Runtime.

Import Runtime.

Notation "x <- c ;; k" := (Runtime.bind c (fun x => k))
  (at level 61, c at next level, right associativity).
Notation "c ;;; k" := (Runtime.bind c (fun _ => k))
  (at level 61, right associativity).

(* ================================================================== *)
(** ** The exchange adapter *)
(* ================================================================== *)

(** The double quote, for the template literals that contain one. *)
Definition dq : string := String "034"%char EmptyString.

(** The two helpers below open every revision of the service file with the
    same text. *)

(** [getApiKey]: the key of the process environment, or the empty string
    after a console line when there is none. *)
Definition getApiKey (env : Env) : M string :=
  match API_KEY env with
  | Val (String _ _ as key) => ret key
  | _ =>
      consoleError
        (LogText "API Key is missing. Please set process.env.API_KEY.") ;;;
      ret EmptyString
  end.

(** [safeNum]: a Number that is not NaN is kept, anything else is 0. *)
Definition safeNum (val : nullable number) : number :=
  match val with
  | Val x => if negb (isNaN x) then x else ofZ 0
  | _ => ofZ 0
  end.

(** What follows a successful [generateContent] in every revision:
    a truthy [response.text] is parsed, anything else gives [null]. *)
Definition parseResponse (text : nullable string) : M Json.value :=
  match text with
  | Val (String _ _ as t) => jsonParse t
  | _ => ret Json.JNull
  end.

(** [src/services/geminiService.ts]. *)
Module GeminiService.

Section Exchange.

Variable digits : number -> string.
Variable env : Env.

Definition monthlyBase (profile : UserProfile) : number :=
  safeNum (monthlyBaseSalary profile).
Definition monthlyInc (profile : UserProfile) : number :=
  safeNum (monthlyIncentive profile).
Definition monthlyOver (profile : UserProfile) : number :=
  safeNum (monthlyOvertime profile).
Definition profitShare (profile : UserProfile) : number :=
  safeNum (annualProfitShare profile).
Definition festival (profile : UserProfile) : number :=
  safeNum (festivalBonus profile).
Definition pf (profile : UserProfile) : number :=
  safeNum (providentFund profile).
Definition grat (profile : UserProfile) : number :=
  safeNum (gratuity profile).

Definition annualBaseSalary (profile : UserProfile) : number :=
  (monthlyBase profile * ofZ 12)%js.
Definition annualIncentive (profile : UserProfile) : number :=
  (monthlyInc profile * ofZ 12)%js.
Definition annualOvertime (profile : UserProfile) : number :=
  (monthlyOver profile * ofZ 12)%js.

Definition totalComp (profile : UserProfile) : number :=
  (annualBaseSalary profile + annualIncentive profile + profitShare profile
   + annualOvertime profile + festival profile + pf profile
   + grat profile)%js.

Definition benefitsStr (profile : UserProfile) : string :=
  match benefits profile with
  | Val ((_ :: _) as bs) => join ", " bs
  | _ => "None listed"
  end.

Definition prompt (profile : UserProfile) : string :=
  "
    Analyze the following professional profile for compensation benchmarking and career progression.
    
    Profile Details:
    - Role: " ++
  (strOr (currentRole profile) "Professional") ++
  "
    - Experience: " ++
  (JsNumber.toString digits (safeNum (yearsExperience profile))) ++
  " years
    - Location: " ++
  (strOr (location profile) "Unknown") ++
  "
    - Industry: " ++
  (strOr (industry profile) "General") ++
  "
    - Currency: " ++
  (strOr (currency profile) "USD") ++
  "
    
    Compensation Breakdown (Annualized):
    - Base Salary (Annualized): " ++
  (JsNumber.toString digits (annualBaseSalary profile)) ++
  "
    - Incentive (Annualized): " ++
  (JsNumber.toString digits (annualIncentive profile)) ++
  "
    - Profit Share (Annual): " ++
  (JsNumber.toString digits (profitShare profile)) ++
  "
    - Overtime (Annualized): " ++
  (JsNumber.toString digits (annualOvertime profile)) ++
  "
    - Festival Bonus: " ++
  (JsNumber.toString digits (festival profile)) ++
  "
    - Provident Fund: " ++
  (JsNumber.toString digits (pf profile)) ++
  "
    - Gratuity: " ++
  (JsNumber.toString digits (grat profile)) ++
  "
    - Total Annual Package: " ++
  (JsNumber.toString digits (totalComp profile)) ++
  "
    
    Benefits / Perks:
    " ++
  (benefitsStr profile) ++
  "
    
    TASK:
    1. Evaluate if the Current Total Annual Package (" ++
  (JsNumber.toString digits (totalComp profile)) ++
  " " ++
  (showStr (currency profile)) ++
  ") is fair for the role of " ++
  dq ++
  (showStr (currentRole profile)) ++
  dq ++
  " with " ++
  (showNum digits (yearsExperience profile)) ++
  " years experience specifically in " ++
  (showStr (location profile)) ++
  ".
    2. Predict the NEXT likely role and the expected salary range for that NEXT role in " ++
  (showStr (location profile)) ++
  ".
    3. Provide negotiation scripts:
       - " ++
  dq ++
  "Why You Are Perfect" ++
  dq ++
  ": A persuasive script tailored to their experience level explaining why they are the ideal candidate.
       - " ++
  dq ++
  "Why You Are Asking This" ++
  dq ++
  ": A data-backed script justifying the specific salary increase or package they should ask for, referencing market rates and inflation.
       - " ++
  dq ++
  "Tips" ++
  dq ++
  ": Actionable, short tips for the negotiation meeting with HR.
    
    Provide a strict JSON response.
  ".

Definition salaryRangeSchema : Schema :=
  tObject [("min", tNumber); ("median", tNumber); ("max", tNumber)]
          ["min"; "median"; "max"].

Definition responseSchema : Schema :=
  tObject
    [("marketAnalysis",
      tObject
        [("currentRoleMarketValue", salaryRangeSchema);
         ("paymentStatus", tEnum ["Underpaid"; "Fair"; "Highly Competitive"]);
         ("percentile",
          tNumberD "Estimated percentile of current pay vs market (0-100)");
         ("gapAnalysis",
          tStringD
            "A concise explanation of the salary gap based on location.")]
        ["currentRoleMarketValue"; "paymentStatus"; "percentile";
         "gapAnalysis"]);
     ("nextCareerMove",
      tObject
        [("roleTitle", tString);
         ("timeframeYears", tStringD "e.g. '1-2 years'");
         ("probabilityScore", tNumberD "0-100 confidence in this path");
         ("salaryRange", salaryRangeSchema);
         ("requiredSkills", tArray tString)]
        ["roleTitle"; "timeframeYears"; "probabilityScore"; "salaryRange";
         "requiredSkills"]);
     ("negotiation",
      tObject
        [("whyYouArePerfect",
          tStringD "Script explaining why the user is the perfect candidate.");
         ("whyYouDeserveIt",
          tStringD
            "Script explaining why they are asking for this specific compensation.");
         ("tips", tArrayD tString "3-4 short, bulleted actionable tips.")]
        ["whyYouArePerfect"; "whyYouDeserveIt"; "tips"]);
     ("verdictColor",
      tStringD "A hex color code representing the status (Red/Yellow/Green)")]
    ["marketAnalysis"; "nextCareerMove"; "negotiation"; "verdictColor"].

Definition request (profile : UserProfile) : GenerateContentParameters :=
  {| model := "gemini-2.5-flash";
     contents := prompt profile;
     config := {| responseMimeType := "application/json";
                  GenAI.responseSchema := responseSchema |} |}.

Definition analyzeCompensation (profile : UserProfile) : M Json.value :=
  apiKey <- getApiKey env ;;
  match apiKey with
  | EmptyString => throw (Error "MISSING_API_KEY")
  | String _ _ =>
      tryCatch
        (text <- callGenerateContent env apiKey (request profile) ;;
         parseResponse text)
        (fun error =>
           consoleError (LogExn "Error fetching Gemini analysis:" error) ;;;
           throw error)
  end.

End Exchange.

End GeminiService.

(** [src/unnamed/part_003]: the service revision with the entry-level
    prompt. *)
Module GeminiServiceEntry.

Section Exchange.

Variable digits : number -> string.
Variable env : Env.

Definition monthlyBase (profile : UserProfile) : number :=
  safeNum (monthlyBaseSalary profile).
Definition monthlyInc (profile : UserProfile) : number :=
  safeNum (monthlyIncentive profile).
Definition monthlyOver (profile : UserProfile) : number :=
  safeNum (monthlyOvertime profile).
Definition profitShare (profile : UserProfile) : number :=
  safeNum (annualProfitShare profile).
Definition festival (profile : UserProfile) : number :=
  safeNum (festivalBonus profile).
Definition pf (profile : UserProfile) : number :=
  safeNum (providentFund profile).
Definition grat (profile : UserProfile) : number :=
  safeNum (gratuity profile).

Definition annualBaseSalary (profile : UserProfile) : number :=
  (monthlyBase profile * ofZ 12)%js.
Definition annualIncentive (profile : UserProfile) : number :=
  (monthlyInc profile * ofZ 12)%js.
Definition annualOvertime (profile : UserProfile) : number :=
  (monthlyOver profile * ofZ 12)%js.

Definition totalComp (profile : UserProfile) : number :=
  (annualBaseSalary profile + annualIncentive profile + profitShare profile
   + annualOvertime profile + festival profile + pf profile
   + grat profile)%js.

Definition entryPrompt (profile : UserProfile) : string :=
  "
      Act as an Inspiring Career Mentor and Market Analyst for Fresh Graduates.
      Analyze this Entry-Level profile.
      
      Profile:
      - Target Role: " ++
  (strOr (currentRole profile) "Not Specified") ++
  "
      - Education: " ++
  (strOr (education profile) "Not Specified") ++
  "
      - Key Skills: " ++
  (strOr (userSkills profile) "Not Specified") ++
  "
      - Key Projects/Thesis: " ++
  dq ++
  (strOr (projectDetails profile) "None listed") ++
  dq ++
  "
      - Location: " ++
  (strOr (location profile) "Unknown") ++
  "
      - Industry: " ++
  (strOr (industry profile) "General") ++
  "
      - Currency: " ++
  (strOr (currency profile) "USD") ++
  "
      - User's Expected Monthly Salary: " ++
  (JsNumber.toString digits (numOr (expectedSalary profile) (ofZ 0))) ++
  "

      TASK:
      1. REAL-TIME MARKET DATA: Estimate the *actual* Entry-Level salary range (Annual) for this role in this location based on platforms like Glassdoor/LinkedIn/Levels.fyi.
      2. PROJECT VALUATION: In 'gapAnalysis', specifically analyze their Project/Thesis. How does this project translate to real-world value? (e.g., " ++
  dq ++
  "Your thesis on AI shows you can handle complex data..." ++
  dq ++
  ").
      3. GROWTH MAP: Instead of " ++
  dq ++
  "Next Role" ++
  dq ++
  ", predict where they could be in 2 years (e.g. " ++
  dq ++
  "Mid-Level Engineer" ++
  dq ++
  ").
      4. SKILL GAP: List 3-5 " ++
  dq ++
  "Money-Making Skills" ++
  dq ++
  " they should add immediately to increase their value.
      5. INTERVIEW PITCH: Create a script on how to SELL their Project/Thesis during an interview to negotiate a higher salary.
         - Map " ++
  dq ++
  "whyYouArePerfect" ++
  dq ++
  " to " ++
  dq ++
  "How to explain your Project's Impact" ++
  dq ++
  ".
         - Map " ++
  dq ++
  "whyYouDeserveIt" ++
  dq ++
  " to " ++
  dq ++
  "Why your skills define your value, not your experience" ++
  dq ++
  ".

      Provide a strict JSON response conforming to the schema.
    ".

Definition experiencedPrompt (profile : UserProfile) : string :=
  "
      Act as an Expert Executive Headhunter and Senior Compensation Data Scientist. 
      Analyze the following EXPERIENCED profile using REAL-TIME market data contexts for late 2024/2025.
      
      User Profile:
      - Role: " ++
  (strOr (currentRole profile) "Professional") ++
  "
      - Experience: " ++
  (JsNumber.toString digits (safeNum (yearsExperience profile))) ++
  " years
      - Location: " ++
  (strOr (location profile) "Unknown") ++
  " (Factor in cost of living and local market demand)
      - Industry: " ++
  (strOr (industry profile) "General") ++
  "
      - Currency: " ++
  (strOr (currency profile) "USD") ++
  "
      
      Total Annual Compensation: " ++
  (JsNumber.toString digits (totalComp profile)) ++
  "
      
      TASK:
      1. ACCURATE MARKET ANALYSIS: Compare this user against the *actual* market rates. Be precise.
      2. CAREER LADDER PREDICTION: Identify the exact next logical role. Not just a generic step, but the industry-standard promotion title.
      3. CHECKLIST FOR SWITCHING: Generate 5 critical, specific things this user must check in their offer letter or interview for the NEXT role.
      4. NEGOTIATION SCRIPT: Create a data-backed argument for why they are ready for this next step.
      
      Provide a strict JSON response conforming to the schema.
    ".

Definition prompt (profile : UserProfile) : string :=
  if truthyBool (isEntryLevel profile)
  then entryPrompt profile
  else experiencedPrompt profile.

Definition salaryRangeSchema : Schema :=
  tObject [("min", tNumber); ("median", tNumber); ("max", tNumber)]
          ["min"; "median"; "max"].

Definition responseSchema : Schema :=
  tObject
    [("marketAnalysis",
      tObject
        [("currentRoleMarketValue", salaryRangeSchema);
         ("paymentStatus",
          tEnum ["Underpaid"; "Fair"; "Highly Competitive"; "Entry Level"]);
         ("percentile", tNumber);
         ("gapAnalysis",
          tStringD "For newbies: Project Valuation & Employability Sentiment")]
        ["currentRoleMarketValue"; "paymentStatus"; "percentile";
         "gapAnalysis"]);
     ("nextCareerMove",
      tObject
        [("roleTitle", tString);
         ("timeframeYears", tString);
         ("probabilityScore", tNumber);
         ("salaryRange", salaryRangeSchema);
         ("requiredSkills",
          tArrayD tString "For newbies: High demand skills to learn");
         ("switchChecklist",
          tArrayD tString
            "Specific things to verify before accepting the job offer")]
        ["roleTitle"; "timeframeYears"; "probabilityScore"; "salaryRange";
         "requiredSkills"; "switchChecklist"]);
     ("negotiation",
      tObject
        [("whyYouArePerfect", tString);
         ("whyYouDeserveIt", tString);
         ("tips", tArray tString)]
        ["whyYouArePerfect"; "whyYouDeserveIt"; "tips"]);
     ("verdictColor", tString)]
    ["marketAnalysis"; "nextCareerMove"; "negotiation"; "verdictColor"].

Definition request (profile : UserProfile) : GenerateContentParameters :=
  {| model := "gemini-2.5-flash";
     contents := prompt profile;
     config := {| responseMimeType := "application/json";
                  GenAI.responseSchema := responseSchema |} |}.

Definition analyzeCompensation (profile : UserProfile) : M Json.value :=
  apiKey <- getApiKey env ;;
  match apiKey with
  | EmptyString => throw (Error "MISSING_API_KEY")
  | String _ _ =>
      tryCatch
        (text <- callGenerateContent env apiKey (request profile) ;;
         parseResponse text)
        (fun error =>
           consoleError (LogExn "Error fetching Gemini analysis:" error) ;;;
           throw error)
  end.

End Exchange.

End GeminiServiceEntry.

(* ================================================================== *)
(** ** The application shell: [src/App.tsx] *)
(* ================================================================== *)

Module App.

(** The four state cells of the component. *)
Record State : Type := {
  isLoading : bool;
  results : option Json.value;
  userProfile : option UserProfile;
  error : option string
}.

Definition initialState : State :=
  {| isLoading := false; results := None; userProfile := None;
     error := None |}.

Definition msgEmpty : string :=
  "Could not generate analysis. Please try again.".
Definition msgMissingKey : string :=
  "API Key is missing. Please configure your Vercel/Environment variables with 'API_KEY'.".
Definition msgFailed : string :=
  "Analysis failed. Please check your internet connection and try again.".

Section Handlers.

Variable digits : number -> string.
Variable env : Env.

(** [handleAnalysis]: the state after the handler has run to its [finally]
    (scrolling the page is not part of the state). *)
Definition handleAnalysis (profile : UserProfile) (st : State) (w : World)
  : State * World :=
  match GeminiService.analyzeCompensation digits env profile w with
  | (Returns data, w1) =>
      if Json.truthy data then
        ({| isLoading := false; results := Some data;
            userProfile := Some profile; error := None |}, w1)
      else
        ({| isLoading := false; results := results st;
            userProfile := Some profile; error := Some msgEmpty |}, w1)
  | (Throws err, w1) =>
      let w2 := snd (consoleError (LogExn EmptyString err) w1) in
      if messageIs err "MISSING_API_KEY" then
        ({| isLoading := false; results := results st;
            userProfile := Some profile; error := Some msgMissingKey |}, w2)
      else
        ({| isLoading := false; results := results st;
            userProfile := Some profile; error := Some msgFailed |}, w2)
  end.

Definition handleReset (st : State) : State :=
  {| isLoading := isLoading st; results := None; userProfile := None;
     error := None |}.

End Handlers.

End App.

(* ================================================================== *)
(** ** The feedback modal: [src/unnamed/part_001] *)
(* ================================================================== *)

Module FeedbackModal.

Inductive Step : Type := form | submitting | success.

Record Fields : Type := {
  rating : number;
  email : string;
  missingFields : string;
  improvements : string
}.

Definition FORMSPREE_FORM_ID : string := "mnnwkblw".

(** What the relay does with a POST: [fetch] rejects, or it resolves to a
    response with its [ok] flag and a body that [response.json()] either
    decodes or rejects. *)
Inductive fetchReply : Type :=
| FetchRejects (e : exn)
| FetchResolves (ok : bool) (body : option Json.value).

(** The modal's step cell, with every value [setStep] gave it, the console
    and the POSTs that went out. *)
Record Modal : Type := {
  step : Step;
  steps : list Step;
  console : list logged;
  posts : list (string * Json.value)
}.

Definition opened : Modal :=
  {| step := form; steps := []; console := []; posts := [] |}.

Definition setStep (s : Step) (m : Modal) : Modal :=
  {| step := s; steps := (steps m ++ [s])%list; console := console m;
     posts := posts m |}.

Definition logError (l : logged) (m : Modal) : Modal :=
  {| step := step m; steps := steps m; console := (console m ++ [l])%list;
     posts := posts m |}.

Definition post (url : string) (body : Json.value) (m : Modal) : Modal :=
  {| step := step m; steps := steps m; console := console m;
     posts := (posts m ++ [(url, body)])%list |}.

Section Submit.

Variable digits : number -> string.
(** [String.prototype.trim] of the engine. *)
Variable trim : string -> string.
Variable relay : string -> Json.value -> fetchReply.

Definition payload (f : Fields) : Json.value :=
  let base :=
    [("rating", Json.JNumber (rating f));
     ("missing_fields", Json.JString (missingFields f));
     ("improvements", Json.JString (improvements f));
     ("_subject",
      Json.JString ("New App Feedback (" ++ JsNumber.toString digits (rating f)
                    ++ "/5 stars)"))] in
  match email f, trim (email f) with
  | String _ _, String _ _ =>
      Json.JObject (Json.setProp "email" (Json.JString (trim (email f))) base)
  | _, _ =>
      Json.JObject
        (Json.setProp "sender_status" (Json.JString "Anonymous User") base)
  end.

Definition url : string := "https://formspree.io/f/" ++ FORMSPREE_FORM_ID.

(** The body of the [try] block, up to the point where it either reaches
    [setStep('success')] or throws. *)
Definition trySend (f : Fields) (m : Modal) : Modal * option exn :=
  let m1 := post url (payload f) m in
  match relay url (payload f) with
  | FetchRejects e => (m1, Some e)
  | FetchResolves true _ => (setStep success m1, None)
  | FetchResolves false (Some errorData) =>
      (logError (LogJson "Formspree Error:" errorData) m1,
       Some (Error "Failed to send feedback"))
  | FetchResolves false None => (m1, Some SyntaxError)
  end.

Definition handleSubmit (f : Fields) (m : Modal) : Modal :=
  let m0 := setStep submitting m in
  match trySend f m0 with
  | (m1, None) => m1
  | (m1, Some err) =>
      setStep success (logError (LogExn "Error sending feedback:" err) m1)
  end.

End Submit.

End FeedbackModal.

(* ================================================================== *)
(** ** Concrete inputs for the examples *)
(* ================================================================== *)

Module Samples.

(** The exact decimal expansion of a positive finite Number.  It is what
    the engine prints for integers below 2^53 and for short dyadic
    fractions, which is all the examples interpolate. *)
Definition showN (n : N) : string := NilZero.string_of_uint (N.to_uint n).

Fixpoint dropZeros (cs : list ascii) : list ascii :=
  match cs with
  | "0"%char :: rest => dropZeros rest
  | _ => cs
  end.

Definition fraction (n : N) (width : nat) : string :=
  let ds := list_ascii_of_string (showN n) in
  let padded := (repeat "0"%char (width - List.length ds) ++ ds)%list in
  string_of_list_ascii (rev (dropZeros (rev padded))).

Definition exactDigits (x : number) : string :=
  match x with
  | S754_finite _ m (Zneg k) =>
      let d := (2 ^ Npos k)%N in
      let whole := (Npos m / d)%N in
      let part := (Npos m mod d)%N in
      if (part =? 0)%N then showN whole
      else showN whole ++ "." ++ fraction (part * 5 ^ Npos k)%N (Pos.to_nat k)
  | S754_finite _ m e => showN (Npos m * 2 ^ Z.to_N e)%N
  | _ => EmptyString
  end.

(** JSON texts are written with an apostrophe wherever the text has a
    double quote. *)
Fixpoint q (s : string) : string :=
  match s with
  | EmptyString => EmptyString
  | String "'"%char rest => String "034"%char (q rest)
  | String c rest => String c (q rest)
  end.

Definition envWith (key : nullable string) (r : reply) : Env :=
  {| API_KEY := key; generateContent := fun _ _ => r |}.

Definition experienced : UserProfile :=
  {| currentRole := Val "Software Engineer";
     industry := Val "Technology";
     location := Val "Dhaka";
     currency := Val "BDT";
     yearsExperience := Val (ofZ 5);
     isEntryLevel := Val false;
     monthlyBaseSalary := Val (ofZ 5000);
     monthlyIncentive := Val (ofZ 250);
     monthlyOvertime := Undefined;
     annualProfitShare := Val NaN;
     festivalBonus := Val (ofZ 10000);
     providentFund := Null;
     gratuity := Val (ofZ 0);
     expectedSalary := Undefined;
     education := Undefined;
     projectDetails := Undefined;
     userSkills := Undefined;
     benefits := Val ["Health Insurance"; "Remote Work"] |}.

(** The form's defaults after the experience box has been cleared:
    [parseFloat] of the empty string is NaN. *)
Definition clearedExperience : UserProfile :=
  {| currentRole := Val "Analyst";
     industry := Val "Finance";
     location := Val "London";
     currency := Val "GBP";
     yearsExperience := Val NaN;
     isEntryLevel := Val false;
     monthlyBaseSalary := Val (ofZ 0);
     monthlyIncentive := Val (ofZ 0);
     monthlyOvertime := Val (ofZ 0);
     annualProfitShare := Val (ofZ 0);
     festivalBonus := Val (ofZ 0);
     providentFund := Val (ofZ 0);
     gratuity := Val (ofZ 0);
     expectedSalary := Undefined;
     education := Undefined;
     projectDetails := Undefined;
     userSkills := Undefined;
     benefits := Val [] |}.

Definition graduate : UserProfile :=
  {| currentRole := Val "Junior UX Designer";
     industry := Val "Design";
     location := Val "Berlin";
     currency := Val "EUR";
     yearsExperience := Val (ofZ 0);
     isEntryLevel := Val true;
     monthlyBaseSalary := Val (ofZ 0);
     monthlyIncentive := Undefined;
     monthlyOvertime := Undefined;
     annualProfitShare := Undefined;
     festivalBonus := Undefined;
     providentFund := Undefined;
     gratuity := Undefined;
     expectedSalary := Val (ofZ 2500);
     education := Val "BSc Design";
     projectDetails := Val "Thesis on accessible forms";
     userSkills := Val "Figma, research";
     benefits := Val [] |}.

(** The same graduate with every experienced-mode field filled in. *)
Definition graduateWithPay : UserProfile :=
  {| currentRole := Val "Junior UX Designer";
     industry := Val "Design";
     location := Val "Berlin";
     currency := Val "EUR";
     yearsExperience := Val (ofZ 7);
     isEntryLevel := Val true;
     monthlyBaseSalary := Val (ofZ 4000);
     monthlyIncentive := Val (ofZ 300);
     monthlyOvertime := Val (ofZ 120);
     annualProfitShare := Val (ofZ 9000);
     festivalBonus := Val (ofZ 8000);
     providentFund := Val (ofZ 1500);
     gratuity := Val NaN;
     expectedSalary := Val (ofZ 2500);
     education := Val "BSc Design";
     projectDetails := Val "Thesis on accessible forms";
     userSkills := Val "Figma, research";
     benefits := Val ["Gym"; "Stock Options"] |}.

Definition marketPart : string :=
  "'marketAnalysis':{'currentRoleMarketValue':{'min':60000,'median':80000,'max':110000},'paymentStatus':'Underpaid','percentile':35.5,'gapAnalysis':'Below the local median.'}".

Definition nextMovePart : string :=
  "'nextCareerMove':{'roleTitle':'Senior Engineer','timeframeYears':'1-2 years','probabilityScore':80,'salaryRange':{'min':90000,'median':120000,'max':150000},'requiredSkills':['System design','Mentoring']}".

Definition negotiationPart : string :=
  "'negotiation':{'whyYouArePerfect':'Five years of delivery.','whyYouDeserveIt':'The market pays more.','tips':['Bring data','Stay calm']},'verdictColor':'#EF4444'".

(** A well-formed reply that matches the declared schema. *)
Definition goodText : string :=
  q ("{" ++ marketPart ++ "," ++ nextMovePart ++ "," ++ negotiationPart ++ "}").

(** Well-formed JSON without the required [nextCareerMove]. *)
Definition textWithoutNextMove : string :=
  q ("{" ++ marketPart ++ "," ++ negotiationPart ++ "}").

(** A reply that matches the declared schema although the market range is
    upside down and its maximum is negative. *)
Definition textWithBadRange : string :=
  q ("{'marketAnalysis':{'currentRoleMarketValue':{'min':90000,'median':50000,'max':-10},'paymentStatus':'Fair','percentile':50,'gapAnalysis':'n/a'},"
     ++ nextMovePart ++ "," ++ negotiationPart ++ "}").

(** A reply cut off in the middle. *)
Definition truncatedText : string :=
  q ("{" ++ marketPart ++ ",'nextCareerMove':{'roleTitle':'Seni").

Definition range (lo mid hi : Z) : Json.value :=
  Json.JObject [("min", Json.JNumber (ofZ lo));
                ("median", Json.JNumber (ofZ mid));
                ("max", Json.JNumber (ofZ hi))].

Definition negotiationValue : Json.value :=
  Json.JObject
    [("whyYouArePerfect", Json.JString "Five years of delivery.");
     ("whyYouDeserveIt", Json.JString "The market pays more.");
     ("tips", Json.JArray [Json.JString "Bring data"; Json.JString "Stay calm"])].

Definition marketValue (r : Json.value) (status : string) (pct : number)
    (gap : string) : Json.value :=
  Json.JObject
    [("currentRoleMarketValue", r);
     ("paymentStatus", Json.JString status);
     ("percentile", Json.JNumber pct);
     ("gapAnalysis", Json.JString gap)].

Definition nextMoveValue : Json.value :=
  Json.JObject
    [("roleTitle", Json.JString "Senior Engineer");
     ("timeframeYears", Json.JString "1-2 years");
     ("probabilityScore", Json.JNumber (ofZ 80));
     ("salaryRange", range 90000 120000 150000);
     ("requiredSkills",
      Json.JArray [Json.JString "System design"; Json.JString "Mentoring"])].

(** 35.5 = 71 / 2. *)
Definition thirtyFiveAndHalf : number := (ofZ 71 / ofZ 2)%js.

Definition goodValue : Json.value :=
  Json.JObject
    [("marketAnalysis",
      marketValue (range 60000 80000 110000) "Underpaid" thirtyFiveAndHalf
                  "Below the local median.");
     ("nextCareerMove", nextMoveValue);
     ("negotiation", negotiationValue);
     ("verdictColor", Json.JString "#EF4444")].

Definition valueWithoutNextMove : Json.value :=
  Json.JObject
    [("marketAnalysis",
      marketValue (range 60000 80000 110000) "Underpaid" thirtyFiveAndHalf
                  "Below the local median.");
     ("negotiation", negotiationValue);
     ("verdictColor", Json.JString "#EF4444")].

Definition valueWithBadRange : Json.value :=
  Json.JObject
    [("marketAnalysis",
      marketValue (range 90000 50000 (-10)) "Fair" (ofZ 50) "n/a");
     ("nextCareerMove", nextMoveValue);
     ("negotiation", negotiationValue);
     ("verdictColor", Json.JString "#EF4444")].

End Samples.

(* ================================================================== *)
(** ** Vocabulary of the statements *)
(* ================================================================== *)

(** The credential the service will use, if the environment holds one. *)
Definition keyOf (env : Env) : option string :=
  match API_KEY env with
  | Val (String c s) => Some (String c s)
  | _ => None
  end.

(** The world after one more request, and after one more console line. *)
Definition sent (w : World) (apiKey : string)
    (request : GenerateContentParameters) : World :=
  {| Runtime.console := Runtime.console w;
     calls := (calls w ++ [(apiKey, request)])%list |}.

Definition noted (w : World) (l : logged) : World :=
  {| Runtime.console := (Runtime.console w ++ [l])%list; calls := calls w |}.

(** A [response.text] that the test [if (response.text)] rejects. *)
Definition noText (text : nullable string) : bool :=
  match text with
  | Val (String _ _) => false
  | _ => true
  end.

Definition numberAt (ks : list string) (v : Json.value) : option number :=
  match Json.path ks v with
  | Some (Json.JNumber n) => Some n
  | _ => None
  end.

(** The salary-range invariant of the data model, read off a JSON object:
    [0 <= min <= median <= max]. *)
Definition rangeOk (r : Json.value) : bool :=
  match numberAt ["min"] r, numberAt ["median"] r, numberAt ["max"] r with
  | Some lo, Some mid, Some hi =>
      JsNumber.leb (ofZ 0) lo && JsNumber.leb lo mid && JsNumber.leb mid hi
  | _, _, _ => false
  end.

Definition marketRange : list string :=
  ["marketAnalysis"; "currentRoleMarketValue"].
Definition nextRange : list string := ["nextCareerMove"; "salaryRange"].



(** The profile fields the entry-level prompt reads. *)
Definition sameEntryFields (p1 p2 : UserProfile) : Prop :=
  currentRole p1 = currentRole p2 /\
  education p1 = education p2 /\
  userSkills p1 = userSkills p2 /\
  projectDetails p1 = projectDetails p2 /\
  location p1 = location p2 /\
  industry p1 = industry p2 /\
  currency p1 = currency p2 /\
  expectedSalary p1 = expectedSalary p2.

(** A typed insights record around the two medians the dashboards read. *)
Definition insightsWith (marketMedian nextMedian : number)
  : CompensationInsights :=
  let flat (m : number) := {| min := m; median := m; max := m |} in
  {| marketAnalysis :=
       {| currentRoleMarketValue := flat marketMedian;
          paymentStatus := "Fair"; percentile := ofZ 50;
          gapAnalysis := "n/a" |};
     nextCareerMove :=
       {| roleTitle := "Next"; timeframeYears := "1-2 years";
          probabilityScore := ofZ 50; salaryRange := flat nextMedian;
          requiredSkills := ["One"]; switchChecklist := Undefined |};
     negotiation :=
       {| whyYouArePerfect := "a"; whyYouDeserveIt := "b"; tips := ["c"] |};
     verdictColor := "#000000" |}.

(** [s.includes(part)]. *)
Definition includes (s part : string) : bool :=
  match String.index 0 part s with
  | Some _ => true
  | None => false
  end.

Import Samples.

(* ================================================================== *)
(** ** Further source functions *)
(* ================================================================== *)

(** [Math.max] and [Math.min] on two Numbers: NaN as soon as one argument
    is NaN, and +0 counts as larger than -0. *)
Module JsMath.

Definition max (a b : number) : number :=
  if (isNaN a || isNaN b)%bool then NaN
  else if (b > a)%js then b
  else if (a > b)%js then a
  else match a with S754_zero true => b | _ => a end.

Definition min (a b : number) : number :=
  if (isNaN a || isNaN b)%bool then NaN
  else if (a > b)%js then b
  else if (b > a)%js then a
  else match a with S754_zero false => b | _ => a end.

End JsMath.

(** The [MarketSpectrum] component, the same text in both dashboard
    revisions: where the markers sit on the track, in percent. *)
Module MarketSpectrum.

Section Props.

Variables min max median : number.
Variable current : nullable number.

Definition getPos (val : number) : number :=
  JsMath.min
    (JsMath.max ((((val - min) / (max - min)) * ofZ 100)%js) (ofZ 0))
    (ofZ 100).

Definition medianPos : number := getPos median.

Definition currentPos : number :=
  match current with
  | Val c => if truthy c then getPos c else ofZ 0
  | _ => ofZ 0
  end.

Definition p25Pos : number := getPos (min + (median - min) / ofZ 2)%js.

Definition p75Pos : number := getPos (median + (max - median) / ofZ 2)%js.

End Props.

End MarketSpectrum.

(** [src/unnamed/part_002]: the service revision that asks for the
    switching checklist. *)
Module GeminiServiceChecklist.

Section Exchange.

Variable digits : number -> string.
Variable env : Env.

Definition monthlyBase (profile : UserProfile) : number :=
  safeNum (monthlyBaseSalary profile).
Definition monthlyInc (profile : UserProfile) : number :=
  safeNum (monthlyIncentive profile).
Definition monthlyOver (profile : UserProfile) : number :=
  safeNum (monthlyOvertime profile).
Definition profitShare (profile : UserProfile) : number :=
  safeNum (annualProfitShare profile).
Definition festival (profile : UserProfile) : number :=
  safeNum (festivalBonus profile).
Definition pf (profile : UserProfile) : number :=
  safeNum (providentFund profile).
Definition grat (profile : UserProfile) : number :=
  safeNum (gratuity profile).

Definition annualBaseSalary (profile : UserProfile) : number :=
  (monthlyBase profile * ofZ 12)%js.
Definition annualIncentive (profile : UserProfile) : number :=
  (monthlyInc profile * ofZ 12)%js.
Definition annualOvertime (profile : UserProfile) : number :=
  (monthlyOver profile * ofZ 12)%js.

Definition totalComp (profile : UserProfile) : number :=
  (annualBaseSalary profile + annualIncentive profile + profitShare profile
   + annualOvertime profile + festival profile + pf profile
   + grat profile)%js.

Definition prompt (profile : UserProfile) : string :=
  "
    Act as an Expert Executive Headhunter and Senior Compensation Data Scientist. 
    Analyze the following profile using REAL-TIME market data contexts for late 2024/2025.
    
    User Profile:
    - Role: " ++
  (strOr (currentRole profile) "Professional") ++
  "
    - Experience: " ++
  (JsNumber.toString digits (safeNum (yearsExperience profile))) ++
  " years
    - Location: " ++
  (strOr (location profile) "Unknown") ++
  " (Factor in cost of living and local market demand)
    - Industry: " ++
  (strOr (industry profile) "General") ++
  "
    - Currency: " ++
  (strOr (currency profile) "USD") ++
  "
    
    Total Annual Compensation: " ++
  (JsNumber.toString digits (totalComp profile)) ++
  "
    
    TASK:
    1. ACCURATE MARKET ANALYSIS: Compare this user against the *actual* market rates. Be precise.
    2. CAREER LADDER PREDICTION: Identify the exact next logical role. Not just a generic step, but the industry-standard promotion title.
    3. CHECKLIST FOR SWITCHING: Generate 5 critical, specific things this user must check in their offer letter or interview for the NEXT role (e.g., specific benefits, remote policy, equity vesting, team structure) that people often forget.
    4. NEGOTIATION SCRIPT: Create a data-backed argument for why they are ready for this next step.
    
    Provide a strict JSON response conforming to the schema.
  ".

Definition salaryRangeSchema : Schema :=
  tObject [("min", tNumber); ("median", tNumber); ("max", tNumber)]
          ["min"; "median"; "max"].

Definition responseSchema : Schema :=
  tObject
    [("marketAnalysis",
      tObject
        [("currentRoleMarketValue", salaryRangeSchema);
         ("paymentStatus", tEnum ["Underpaid"; "Fair"; "Highly Competitive"]);
         ("percentile", tNumber);
         ("gapAnalysis", tString)]
        ["currentRoleMarketValue"; "paymentStatus"; "percentile";
         "gapAnalysis"]);
     ("nextCareerMove",
      tObject
        [("roleTitle", tString);
         ("timeframeYears", tString);
         ("probabilityScore", tNumber);
         ("salaryRange", salaryRangeSchema);
         ("requiredSkills", tArray tString);
         ("switchChecklist",
          tArrayD tString
            "5 specific things to verify before accepting the next job offer")]
        ["roleTitle"; "timeframeYears"; "probabilityScore"; "salaryRange";
         "requiredSkills"; "switchChecklist"]);
     ("negotiation",
      tObject
        [("whyYouArePerfect", tString);
         ("whyYouDeserveIt", tString);
         ("tips", tArray tString)]
        ["whyYouArePerfect"; "whyYouDeserveIt"; "tips"]);
     ("verdictColor", tString)]
    ["marketAnalysis"; "nextCareerMove"; "negotiation"; "verdictColor"].

Definition request (profile : UserProfile) : GenerateContentParameters :=
  {| model := "gemini-2.5-flash";
     contents := prompt profile;
     config := {| responseMimeType := "application/json";
                  GenAI.responseSchema := responseSchema |} |}.

Definition analyzeCompensation (profile : UserProfile) : M Json.value :=
  apiKey <- getApiKey env ;;
  match apiKey with
  | EmptyString => throw (Error "MISSING_API_KEY")
  | String _ _ =>
      tryCatch
        (text <- callGenerateContent env apiKey (request profile) ;;
         parseResponse text)
        (fun error =>
           consoleError (LogExn "Error fetching Gemini analysis:" error) ;;;
           throw error)
  end.

End Exchange.

End GeminiServiceChecklist.

(** [src/components/SalaryForm.tsx]: the state updates of the form. *)
Module SalaryForm.

Inductive Mode : Type := experienced | entry.

(** The calls [handleChange(field, value)] that the inputs make: text
    inputs pass [e.target.value], numeric ones [parseFloat] of it. *)
Inductive change : Type :=
| setCurrentRole (value : string)
| setIndustry (value : string)
| setLocation (value : string)
| setCurrency (value : string)
| setEducation (value : string)
| setProjectDetails (value : string)
| setUserSkills (value : string)
| setYearsExperience (value : number)
| setExpectedSalary (value : number)
| setMonthlyBaseSalary (value : number)
| setMonthlyIncentive (value : number)
| setMonthlyOvertime (value : number)
| setAnnualProfitShare (value : number)
| setFestivalBonus (value : number)
| setGratuity (value : number)
| setProvidentFund (value : number).

(** [handleChange]: [{ ...prev, [field]: value }]. *)
Definition handleChange (c : change) (prev : UserProfile) : UserProfile :=
  {| currentRole :=
       match c with setCurrentRole v => Val v | _ => currentRole prev end;
     industry :=
       match c with setIndustry v => Val v | _ => industry prev end;
     location :=
       match c with setLocation v => Val v | _ => location prev end;
     currency :=
       match c with setCurrency v => Val v | _ => currency prev end;
     yearsExperience :=
       match c with
       | setYearsExperience v => Val v
       | _ => yearsExperience prev
       end;
     isEntryLevel := isEntryLevel prev;
     monthlyBaseSalary :=
       match c with
       | setMonthlyBaseSalary v => Val v
       | _ => monthlyBaseSalary prev
       end;
     monthlyIncentive :=
       match c with
       | setMonthlyIncentive v => Val v
       | _ => monthlyIncentive prev
       end;
     monthlyOvertime :=
       match c with
       | setMonthlyOvertime v => Val v
       | _ => monthlyOvertime prev
       end;
     annualProfitShare :=
       match c with
       | setAnnualProfitShare v => Val v
       | _ => annualProfitShare prev
       end;
     festivalBonus :=
       match c with
       | setFestivalBonus v => Val v
       | _ => festivalBonus prev
       end;
     providentFund :=
       match c with
       | setProvidentFund v => Val v
       | _ => providentFund prev
       end;
     gratuity :=
       match c with setGratuity v => Val v | _ => gratuity prev end;
     expectedSalary :=
       match c with
       | setExpectedSalary v => Val v
       | _ => expectedSalary prev
       end;
     education :=
       match c with setEducation v => Val v | _ => education prev end;
     projectDetails :=
       match c with
       | setProjectDetails v => Val v
       | _ => projectDetails prev
       end;
     userSkills :=
       match c with setUserSkills v => Val v | _ => userSkills prev end;
     benefits := benefits prev |}.

(** The profile update of [handleModeSwitch]. *)
Definition handleModeSwitch (newMode : Mode) (prev : UserProfile)
  : UserProfile :=
  {| currentRole := currentRole prev;
     industry := industry prev;
     location := location prev;
     currency := currency prev;
     yearsExperience :=
       match newMode with
       | entry => Val (ofZ 0)
       | experienced => yearsExperience prev
       end;
     isEntryLevel :=
       Val match newMode with entry => true | experienced => false end;
     monthlyBaseSalary :=
       match newMode with
       | entry => Val (ofZ 0)
       | experienced => monthlyBaseSalary prev
       end;
     monthlyIncentive := monthlyIncentive prev;
     monthlyOvertime := monthlyOvertime prev;
     annualProfitShare := annualProfitShare prev;
     festivalBonus := festivalBonus prev;
     providentFund := providentFund prev;
     gratuity := gratuity prev;
     expectedSalary := expectedSalary prev;
     education := education prev;
     projectDetails := projectDetails prev;
     userSkills := userSkills prev;
     benefits := benefits prev |}.

(** The list update of [toggleBenefit]: a label that is included is
    filtered out, any other is appended. *)
Definition toggle (benefit : string) (selected : list string)
  : list string :=
  if existsb (String.eqb benefit) selected
  then filter (fun b => negb (String.eqb b benefit)) selected
  else (selected ++ [benefit])%list.

Definition withBenefits (bs : list string) (prev : UserProfile)
  : UserProfile :=
  {| currentRole := currentRole prev;
     industry := industry prev;
     location := location prev;
     currency := currency prev;
     yearsExperience := yearsExperience prev;
     isEntryLevel := isEntryLevel prev;
     monthlyBaseSalary := monthlyBaseSalary prev;
     monthlyIncentive := monthlyIncentive prev;
     monthlyOvertime := monthlyOvertime prev;
     annualProfitShare := annualProfitShare prev;
     festivalBonus := festivalBonus prev;
     providentFund := providentFund prev;
     gratuity := gratuity prev;
     expectedSalary := expectedSalary prev;
     education := education prev;
     projectDetails := projectDetails prev;
     userSkills := userSkills prev;
     benefits := Val bs |}.

(** [toggleBenefit]; reading [includes] off a [benefits] that is not an
    array raises a [TypeError], which is [None] here. *)
Definition toggleBenefit (benefit : string) (prev : UserProfile)
  : option UserProfile :=
  match benefits prev with
  | Val selected => Some (withBenefits (toggle benefit selected) prev)
  | _ => None
  end.

(** The two state cells of the form, and what the user can do to them. *)
Record State : Type := {
  profile : UserProfile;
  mode : Mode
}.

Inductive action : Type :=
| Change (c : change)
| SwitchMode (newMode : Mode)
| ToggleBenefit (benefit : string).

Definition act (a : action) (st : State) : option State :=
  match a with
  | Change c =>
      Some {| profile := handleChange c (profile st); mode := mode st |}
  | SwitchMode m =>
      Some {| profile := handleModeSwitch m (profile st); mode := m |}
  | ToggleBenefit b =>
      match toggleBenefit b (profile st) with
      | Some p => Some {| profile := p; mode := mode st |}
      | None => None
      end
  end.

Fixpoint run (actions : list action) (st : State) : option State :=
  match actions with
  | [] => Some st
  | a :: rest =>
      match act a st with
      | Some st' => run rest st'
      | None => None
      end
  end.

End SalaryForm.

(** [src/App.tsx] as a transition system: [handleAnalysis] is an
    asynchronous handler, so a click on the logo can fall between its
    first half and the arrival of the reply. *)
Module AppMachine.

(** What the component renders. *)
Inductive View : Type :=
| LoadingScreen
| Dashboard (results : Json.value) (userProfile : UserProfile)
| Form (error : option string).

Definition view (st : App.State) : View :=
  if App.isLoading st then LoadingScreen
  else match App.results st, App.userProfile st with
       | Some r, Some p => Dashboard r p
       | _, _ => Form (App.error st)
       end.

(** [handleAnalysis] up to its [await]. *)
Definition beginAnalysis (profile : UserProfile) (st : App.State)
  : App.State :=
  {| App.isLoading := true; App.results := App.results st;
     App.userProfile := Some profile; App.error := None |}.

(** [handleAnalysis] from the outcome of the awaited call to its
    [finally]. *)
Definition settleAnalysis (outcome : result Json.value) (st : App.State)
  : App.State :=
  match outcome with
  | Returns data =>
      if Json.truthy data then
        {| App.isLoading := false; App.results := Some data;
           App.userProfile := App.userProfile st;
           App.error := App.error st |}
      else
        {| App.isLoading := false; App.results := App.results st;
           App.userProfile := App.userProfile st;
           App.error := Some App.msgEmpty |}
  | Throws err =>
      {| App.isLoading := false; App.results := App.results st;
         App.userProfile := App.userProfile st;
         App.error :=
           Some (if messageIs err "MISSING_API_KEY"
                 then App.msgMissingKey else App.msgFailed) |}
  end.

(** The console line of the [catch] block. *)
Definition settleWorld (outcome : result Json.value) (w : World) : World :=
  match outcome with
  | Returns _ => w
  | Throws err => snd (consoleError (LogExn EmptyString err) w)
  end.

(** The component state, the world, and the profiles whose exchange has
    been started and not yet settled. *)
Record Machine : Type := {
  ui : App.State;
  world : World;
  pending : list UserProfile
}.

Definition start : Machine :=
  {| ui := App.initialState; world := quiet; pending := [] |}.

Definition submitted (profile : UserProfile) (m : Machine) : Machine :=
  {| ui := beginAnalysis profile (ui m); world := world m;
     pending := (pending m ++ [profile])%list |}.

Definition settled (digits : number -> string) (env : Env)
    (profile : UserProfile) (rest : list UserProfile) (m : Machine)
  : Machine :=
  let '(outcome, w) :=
    GeminiService.analyzeCompensation digits env profile (world m) in
  {| ui := settleAnalysis outcome (ui m); world := settleWorld outcome w;
     pending := rest |}.

Definition reset (m : Machine) : Machine :=
  {| ui := App.handleReset (ui m); world := world m; pending := pending m |}.

(** The form is only there to submit while it is rendered; the logo is
    always there; a started exchange settles with whatever the service
    does at that time. *)
Inductive step (digits : number -> string) : Machine -> Machine -> Prop :=
| Submit (m : Machine) (profile : UserProfile) (shown : option string) :
    view (ui m) = Form shown -> step digits m (submitted profile m)
| Settle (m : Machine) (env : Env) (profile : UserProfile)
         (rest : list UserProfile) :
    pending m = profile :: rest ->
    step digits m (settled digits env profile rest m)
| Reset (m : Machine) : step digits m (reset m).

Inductive reachable (digits : number -> string) : Machine -> Prop :=
| reach_start : reachable digits start
| reach_step (m m' : Machine) :
    reachable digits m -> step digits m m' -> reachable digits m'.

End AppMachine.

(* ================================================================== *)
(** ** Vocabulary of the further statements *)
(* ================================================================== *)

(** A numeric field that is missing, NaN, or a Number [>= 0]. *)
Definition notNegative (v : nullable number) : Prop :=
  match v with
  | Val x => isNaN x = true \/ JsNumber.leb (ofZ 0) x = true
  | _ => True
  end.

Definition compensationNotNegative (p : UserProfile) : Prop :=
  notNegative (monthlyBaseSalary p) /\
  notNegative (monthlyIncentive p) /\
  notNegative (monthlyOvertime p) /\
  notNegative (annualProfitShare p) /\
  notNegative (festivalBonus p) /\
  notNegative (providentFund p) /\
  notNegative (gratuity p).

(** The profile with every numeric field replaced by what the later
    service revisions make of it. *)
Definition numbersNormalised (p : UserProfile) : UserProfile :=
  {| currentRole := currentRole p;
     industry := industry p;
     location := location p;
     currency := currency p;
     yearsExperience := Val (safeNum (yearsExperience p));
     isEntryLevel := isEntryLevel p;
     monthlyBaseSalary := Val (safeNum (monthlyBaseSalary p));
     monthlyIncentive := Val (safeNum (monthlyIncentive p));
     monthlyOvertime := Val (safeNum (monthlyOvertime p));
     annualProfitShare := Val (safeNum (annualProfitShare p));
     festivalBonus := Val (safeNum (festivalBonus p));
     providentFund := Val (safeNum (providentFund p));
     gratuity := Val (safeNum (gratuity p));
     expectedSalary := Val (numOr (expectedSalary p) (ofZ 0));
     education := education p;
     projectDetails := projectDetails p;
     userSkills := userSkills p;
     benefits := benefits p |}.

(** What the experienced prompt of the later revisions reads. *)
Definition sameExperiencedFields (p1 p2 : UserProfile) : Prop :=
  currentRole p1 = currentRole p2 /\
  safeNum (yearsExperience p1) = safeNum (yearsExperience p2) /\
  location p1 = location p2 /\
  industry p1 = industry p2 /\
  currency p1 = currency p2 /\
  GeminiServiceEntry.totalComp p1 = GeminiServiceEntry.totalComp p2.

(** The sample profile [experienced] with its pay grouped differently
    (same total) and other entry-mode fields and benefits. *)
Definition regrouped : UserProfile :=
  {| currentRole := Val "Software Engineer";
     industry := Val "Technology";
     location := Val "Dhaka";
     currency := Val "BDT";
     yearsExperience := Val (ofZ 5);
     isEntryLevel := Undefined;
     monthlyBaseSalary := Val (ofZ 5250);
     monthlyIncentive := Val NaN;
     monthlyOvertime := Val (ofZ 0);
     annualProfitShare := Val (ofZ 4000);
     festivalBonus := Val (ofZ 6000);
     providentFund := Undefined;
     gratuity := Undefined;
     expectedSalary := Val (ofZ 900);
     education := Val "MSc";
     projectDetails := Val "Compiler in a weekend";
     userSkills := Val "Rust";
     benefits := Undefined |}.

(** A feedback form with an address padded by blanks, and one without. *)
Definition signedFeedback : FeedbackModal.Fields :=
  {| FeedbackModal.rating := ofZ 4;
     FeedbackModal.email := "reader@example.org";
     FeedbackModal.missingFields := "Equity";
     FeedbackModal.improvements := "More currencies" |}.

Definition anonymousFeedback : FeedbackModal.Fields :=
  {| FeedbackModal.rating := ofZ 2;
     FeedbackModal.email := EmptyString;
     FeedbackModal.missingFields := EmptyString;
     FeedbackModal.improvements := "Faster" |}.

(* ================================================================== *)
(** ** The exchange adapter: control flow *)
(* ================================================================== *)

Section AdapterFacts.

Variable digits : number -> string.

Ltac run_adapter :=
  unfold GeminiService.analyzeCompensation, getApiKey, keyOf, bind, ret,
    throw, tryCatch, callGenerateContent, consoleError, parseResponse,
    jsonParse, sent, noted in *.

Lemma keyOf_nonempty (env : Env) (key : string) :
  keyOf env = Some key -> API_KEY env = Val key /\ key <> EmptyString.
Proof.
  unfold keyOf. destruct (API_KEY env) as [ | | [ | c s ] ]; try discriminate.
  intros H. injection H as <-. split; [ reflexivity | discriminate ].
Qed.

(** Without a credential nothing is sent and the sentinel error is thrown
    after one console line. *)
Lemma analyze_without_key (env : Env) (profile : UserProfile) (w : World) :
  keyOf env = None ->
  GeminiService.analyzeCompensation digits env profile w
  = (Throws (Error "MISSING_API_KEY"),
     noted w (LogText "API Key is missing. Please set process.env.API_KEY.")).
Proof.
  run_adapter.
  destruct (API_KEY env) as [ | | [ | c s ] ]; intros H;
    try discriminate; reflexivity.
Qed.

(** With a credential exactly one request goes out, and the reply decides. *)
Lemma analyze_with_key (env : Env) (profile : UserProfile) (w : World)
    (key : string) :
  keyOf env = Some key ->
  let request := GeminiService.request digits profile in
  let w1 := sent w key request in
  GeminiService.analyzeCompensation digits env profile w
  = match generateContent env key request with
    | Rejects e =>
        (Throws e, noted w1 (LogExn "Error fetching Gemini analysis:" e))
    | Resolves text =>
        if noText text then (Returns Json.JNull, w1)
        else match text with
             | Val t =>
                 match Json.parse t with
                 | Some v => (Returns v, w1)
                 | None =>
                     (Throws SyntaxError,
                      noted w1
                        (LogExn "Error fetching Gemini analysis:" SyntaxError))
                 end
             | _ => (Returns Json.JNull, w1)
             end
    end.
Proof.
  intros Hkey. destruct (keyOf_nonempty _ _ Hkey) as [Henv Hne].
  run_adapter. rewrite Henv.
  destruct key as [ | c s ]; [ congruence | ].
  destruct (generateContent env (String c s)
              (GeminiService.request digits profile)) as [ text | e ];
    [ | reflexivity ].
  destruct text as [ | | [ | c' s' ] ]; try reflexivity.
  simpl. destruct (Json.parse (String c' s')); reflexivity.
Qed.

Lemma parse_empty : Json.parse EmptyString = None.
Proof. reflexivity. Qed.

End AdapterFacts.

(* ================================================================== *)
(** ** [JSON.parse] on small texts *)
(* ================================================================== *)

(** Numbers are rounded to the nearest binary64 value: [0.1] is
    [7205759403792794 * 2^-56], and a literal beyond the range overflows. *)
Example parse_numbers :
  Json.parse "[0.1, 1e2, -0, 1e400, 5e-324]"
  = Some (Json.JArray
            [Json.JNumber (S754_finite false 7205759403792794 (-56));
             Json.JNumber (ofZ 100);
             Json.JNumber (S754_zero true);
             Json.JNumber Infinity;
             Json.JNumber (S754_finite false 1 (-1074))]).
Proof. vm_compute. reflexivity. Qed.

(** A repeated key keeps its place and takes the last value. *)
Example parse_repeated_key :
  Json.parse (q "{'a': 1, 'b': [true, null], 'a': 'x'}")
  = Some (Json.JObject
            [("a", Json.JString "x");
             ("b", Json.JArray [Json.JBool true; Json.JNull])]).
Proof. vm_compute. reflexivity. Qed.

(** Escapes: a surrogate pair denotes one code point, written here by its
    four UTF-8 bytes. *)
Example parse_escapes :
  Json.parse (q "'a\n\u00e9\ud83d\uDE00'")
  = Some (Json.JString
            (string_of_list_ascii
               ["a"%char; "010"%char; "195"%char; "169"%char;
                "240"%char; "159"%char; "152"%char; "128"%char])).
Proof. vm_compute. reflexivity. Qed.

(** Texts the grammar rejects. *)
Example parse_rejects :
  map Json.parse
      ["[1,]"; "01"; "1."; "-"; "1 2"; "nul"; "{a:1}"; "[1"; "+1"; ".5";
       " "; q "'a"; q "{'a' 1}"; q "{'a':1,}"; q "'\x'"]
  = repeat None 15.
Proof. vm_compute. reflexivity. Qed.

(** The values that are falsy for the caller's [if (data)]. *)
Example parse_falsy_values :
  map (fun t => option_map Json.truthy (Json.parse t))
      ["null"; "0"; "false"; q "''"; "[]"; "{}"]
  = [Some false; Some false; Some false; Some false; Some true; Some true].
Proof. vm_compute. reflexivity. Qed.

(* ================================================================== *)
(** ** Missing credential, empty reply, malformed reply *)
(* ================================================================== *)

(** With a credential the adapter only fails by passing on what the client
    rejected with, or the parser's [SyntaxError]; it never builds the
    sentinel error itself. *)
Lemma failures_with_key (digits : number -> string) (env : Env)
    (profile : UserProfile) (w : World) (key : string) (e : exn) :
  keyOf env = Some key ->
  fst (GeminiService.analyzeCompensation digits env profile w) = Throws e ->
  e = SyntaxError
  \/ generateContent env key (GeminiService.request digits profile)
     = Rejects e.
Proof.
  intros Hkey. rewrite (analyze_with_key digits env profile w key Hkey).
  destruct (generateContent env key (GeminiService.request digits profile))
    as [ text | e' ]; simpl.
  - destruct (noText text); simpl; [ discriminate | ].
    destruct text as [ | | t ]; simpl; try discriminate.
    destruct (Json.parse t); simpl; [ discriminate | ].
    intros H. injection H as <-. left. reflexivity.
  - intros H. injection H as <-. right. reflexivity.
Qed.

(** C1: when the process environment holds no API key, [analyzeCompensation]
    throws the ['MISSING_API_KEY'] error for every profile, no request is
    recorded and the outcome does not depend on the remote service at all;
    the caller then shows the configuration message, which differs from the
    messages of the other outcomes. *)
Theorem C1_missing_key_fails_without_call
    (digits : number -> string) (env : Env) (profile : UserProfile)
    (st : App.State) (w : World) :
  keyOf env = None ->
  fst (GeminiService.analyzeCompensation digits env profile w)
    = Throws (Error "MISSING_API_KEY")
  /\ calls (snd (GeminiService.analyzeCompensation digits env profile w))
     = calls w
  /\ (forall service,
        GeminiService.analyzeCompensation digits
          {| API_KEY := API_KEY env; generateContent := service |} profile w
        = GeminiService.analyzeCompensation digits env profile w)
  /\ App.error (fst (App.handleAnalysis digits env profile st w))
     = Some App.msgMissingKey
  /\ App.results (fst (App.handleAnalysis digits env profile st w))
     = App.results st
  /\ App.msgMissingKey <> App.msgFailed
  /\ App.msgMissingKey <> App.msgEmpty.
Proof.
  intros Hkey.
  pose proof (analyze_without_key digits env profile w Hkey) as Hrun.
  repeat split.
  - rewrite Hrun. reflexivity.
  - rewrite Hrun. reflexivity.
  - intros service. rewrite Hrun.
    apply analyze_without_key. exact Hkey.
  - unfold App.handleAnalysis. rewrite Hrun. reflexivity.
  - unfold App.handleAnalysis. rewrite Hrun. reflexivity.
  - discriminate.
  - discriminate.
Qed.

(** C1 at an environment without a key, from an empty world. *)
Lemma C1_witness :
  keyOf (envWith Undefined (Resolves (Val goodText))) = None
  /\ fst (GeminiService.analyzeCompensation exactDigits
            (envWith Undefined (Resolves (Val goodText))) experienced quiet)
     = Throws (Error "MISSING_API_KEY")
  /\ calls (snd (GeminiService.analyzeCompensation exactDigits
                   (envWith Undefined (Resolves (Val goodText)))
                   experienced quiet))
     = [].
Proof.
  split; [ reflexivity | ].
  destruct (C1_missing_key_fails_without_call exactDigits
              (envWith Undefined (Resolves (Val goodText))) experienced
              App.initialState quiet eq_refl) as (Hthrow & Hcalls & _).
  split; [ exact Hthrow | exact Hcalls ].
Defined.

(** C5: when the service answers without any text, [analyzeCompensation]
    returns [null] after its single request, throws nothing and logs
    nothing; the caller keeps its results and shows the "could not generate
    analysis" message, whose wording differs from both error messages. *)
Theorem C5_no_text_returns_null
    (digits : number -> string) (env : Env) (profile : UserProfile)
    (st : App.State) (w : World) (key : string) (text : nullable string) :
  keyOf env = Some key ->
  generateContent env key (GeminiService.request digits profile)
    = Resolves text ->
  noText text = true ->
  GeminiService.analyzeCompensation digits env profile w
    = (Returns Json.JNull,
       sent w key (GeminiService.request digits profile))
  /\ App.error (fst (App.handleAnalysis digits env profile st w))
     = Some App.msgEmpty
  /\ App.results (fst (App.handleAnalysis digits env profile st w))
     = App.results st
  /\ App.msgEmpty <> App.msgFailed
  /\ App.msgEmpty <> App.msgMissingKey.
Proof.
  intros Hkey Hreply Hnone.
  assert (Hrun : GeminiService.analyzeCompensation digits env profile w
                 = (Returns Json.JNull,
                    sent w key (GeminiService.request digits profile))).
  { rewrite (analyze_with_key digits env profile w key Hkey).
    cbv zeta. rewrite Hreply, Hnone. reflexivity. }
  repeat split.
  - exact Hrun.
  - unfold App.handleAnalysis. rewrite Hrun. reflexivity.
  - unfold App.handleAnalysis. rewrite Hrun. reflexivity.
  - discriminate.
  - discriminate.
Qed.

(** C5 at a reply whose text is [undefined]. *)
Lemma C5_witness :
  keyOf (envWith (Val "test-key") (Resolves Undefined)) = Some "test-key"
  /\ noText Undefined = true
  /\ fst (GeminiService.analyzeCompensation exactDigits
            (envWith (Val "test-key") (Resolves Undefined)) experienced quiet)
     = Returns Json.JNull
  /\ App.error (fst (App.handleAnalysis exactDigits
                       (envWith (Val "test-key") (Resolves Undefined))
                       experienced App.initialState quiet))
     = Some "Could not generate analysis. Please try again.".
Proof.
  split; [ reflexivity | split; [ reflexivity | ] ].
  destruct (C5_no_text_returns_null exactDigits
              (envWith (Val "test-key") (Resolves Undefined)) experienced
              App.initialState quiet "test-key" Undefined
              eq_refl eq_refl eq_refl) as (Hrun & Herr & _).
  split; [ rewrite Hrun; reflexivity | exact Herr ].
Defined.

(** What a reply with text leads to: the parser's error is logged and
    rethrown, a parsed value is returned as it is. *)
Lemma analyze_text_reply
    (digits : number -> string) (env : Env) (profile : UserProfile)
    (w : World) (key text : string) :
  keyOf env = Some key ->
  generateContent env key (GeminiService.request digits profile)
    = Resolves (Val text) ->
  text <> EmptyString ->
  GeminiService.analyzeCompensation digits env profile w
  = match Json.parse text with
    | Some v => (Returns v, sent w key (GeminiService.request digits profile))
    | None =>
        (Throws SyntaxError,
         noted (sent w key (GeminiService.request digits profile))
               (LogExn "Error fetching Gemini analysis:" SyntaxError))
    end.
Proof.
  intros Hkey Hreply Htext.
  rewrite (analyze_with_key digits env profile w key Hkey).
  cbv zeta. rewrite Hreply.
  destruct text as [ | c s ]; [ congruence | ]. reflexivity.
Qed.

(** C2, as the code has it: a reply whose text is present but is not JSON
    makes [analyzeCompensation] log and rethrow the parser's [SyntaxError],
    which the caller reports with its generic failure message; a reply
    whose text is JSON is returned as parsed, whether or not it matches the
    declared schema. *)
Theorem C2_only_malformed_text_fails
    (digits : number -> string) (env : Env) (profile : UserProfile)
    (st : App.State) (w : World) (key text : string) :
  keyOf env = Some key ->
  generateContent env key (GeminiService.request digits profile)
    = Resolves (Val text) ->
  text <> EmptyString ->
  (Json.parse text = None ->
   GeminiService.analyzeCompensation digits env profile w
   = (Throws SyntaxError,
      noted (sent w key (GeminiService.request digits profile))
            (LogExn "Error fetching Gemini analysis:" SyntaxError))
   /\ App.error (fst (App.handleAnalysis digits env profile st w))
      = Some App.msgFailed)
  /\ (forall v,
        Json.parse text = Some v ->
        GeminiService.analyzeCompensation digits env profile w
        = (Returns v, sent w key (GeminiService.request digits profile))).
Proof.
  intros Hkey Hreply Htext.
  pose proof (analyze_text_reply digits env profile w key text
                Hkey Hreply Htext) as Hrun.
  split.
  - intros Hbad. rewrite Hbad in Hrun. split; [ exact Hrun | ].
    unfold App.handleAnalysis. rewrite Hrun. reflexivity.
  - intros v Hok. rewrite Hok in Hrun. exact Hrun.
Qed.

(** C2 at a reply that was cut off in the middle. *)
Lemma C2_witness :
  keyOf (envWith (Val "test-key") (Resolves (Val truncatedText)))
    = Some "test-key"
  /\ truncatedText <> EmptyString
  /\ Json.parse truncatedText = None
  /\ fst (GeminiService.analyzeCompensation exactDigits
            (envWith (Val "test-key") (Resolves (Val truncatedText)))
            experienced quiet)
     = Throws SyntaxError.
Proof.
  assert (Hne : truncatedText <> EmptyString) by (vm_compute; discriminate).
  assert (Hbad : Json.parse truncatedText = None) by (vm_compute; reflexivity).
  split; [ reflexivity | split; [ exact Hne | split; [ exact Hbad | ] ] ].
  destruct (C2_only_malformed_text_fails exactDigits
              (envWith (Val "test-key") (Resolves (Val truncatedText)))
              experienced App.initialState quiet "test-key" truncatedText
              eq_refl eq_refl Hne) as (Hthrow & _).
  destruct (Hthrow Hbad) as [Hrun _]. rewrite Hrun. reflexivity.
Defined.

(** C2, as stated, fails: a reply that is JSON but lacks the required
    [nextCareerMove] does not conform to the declared schema, and yet
    [analyzeCompensation] returns it instead of failing. *)
Lemma C2_counterexample :
  Json.parse textWithoutNextMove = Some valueWithoutNextMove
  /\ Json.prop "nextCareerMove" valueWithoutNextMove = None
  /\ conforms GeminiService.responseSchema valueWithoutNextMove = false
  /\ fst (GeminiService.analyzeCompensation exactDigits
            (envWith (Val "test-key") (Resolves (Val textWithoutNextMove)))
            experienced quiet)
     = Returns valueWithoutNextMove.
Proof. repeat split; vm_compute; reflexivity. Qed.

(* ================================================================== *)
(** ** Replies that match the declared schema *)
(* ================================================================== *)

(** What conformance to an object schema gives: the value is an object,
    it owns every required key, and each declared property it owns conforms
    to its own schema. *)
Lemma conforms_object (props : list (string * Schema)) (req : list string)
    (v : Json.value) :
  conforms (tObject props req) v = true ->
  exists ms,
    v = Json.JObject ms
    /\ (forall k, In k req -> Json.getProp k ms <> None)
    /\ (forall k sk vk,
          In (k, sk) props -> Json.getProp k ms = Some vk ->
          conforms sk vk = true).
Proof.
  unfold tObject. simpl. destruct v as [ | | | | | ms ]; try discriminate.
  intros H. apply andb_true_iff in H. destruct H as [Hreq Hprops].
  exists ms. split; [ reflexivity | split ].
  - intros k Hin. rewrite forallb_forall in Hreq. specialize (Hreq k Hin).
    destruct (Json.getProp k ms); [ discriminate | discriminate ].
  - clear Hreq. induction props as [ | [k' sk'] rest IH ];
      intros k sk vk Hin Hget; [ contradiction | ].
    apply andb_true_iff in Hprops. destruct Hprops as [Hhere Hrest].
    destruct Hin as [Heq | Hin].
    + injection Heq as -> ->. rewrite Hget in Hhere. exact Hhere.
    + exact (IH Hrest k sk vk Hin Hget).
Qed.

(** A key that is both required and declared is present and conforms. *)
Lemma conforms_field (props : list (string * Schema)) (req : list string)
    (v : Json.value) (k : string) (sk : Schema) :
  conforms (tObject props req) v = true ->
  In k req -> In (k, sk) props ->
  exists vk, Json.prop k v = Some vk /\ conforms sk vk = true.
Proof.
  intros H Hreq Hdecl.
  destruct (conforms_object props req v H) as (ms & -> & Hhas & Hsub).
  simpl. specialize (Hhas k Hreq).
  destruct (Json.getProp k ms) as [ vk | ] eqn:Hget; [ | congruence ].
  exists vk. split; [ reflexivity | exact (Hsub k sk vk Hdecl Hget) ].
Qed.

Lemma conforms_number (v : Json.value) :
  conforms tNumber v = true -> exists n, v = Json.JNumber n.
Proof.
  destruct v; simpl; try discriminate. intros _. eexists. reflexivity.
Qed.

Lemma path_app (ks ks' : list string) (v : Json.value) :
  Json.path (ks ++ ks')%list v
  = match Json.path ks v with
    | Some v' => Json.path ks' v'
    | None => None
    end.
Proof.
  revert v. induction ks as [ | k ks IH ]; intros v; simpl; [ reflexivity | ].
  destruct (Json.prop k v); [ apply IH | reflexivity ].
Qed.

(** A value that conforms to the range schema has three numbers, and the
    schema says nothing more about them. *)
Lemma conforms_range (r : Json.value) :
  conforms GeminiService.salaryRangeSchema r = true ->
  exists lo mid hi,
    numberAt ["min"] r = Some lo
    /\ numberAt ["median"] r = Some mid
    /\ numberAt ["max"] r = Some hi.
Proof.
  intros H. unfold GeminiService.salaryRangeSchema in H.
  destruct (conforms_field _ _ r "min" tNumber H) as (a & Ha & Hca);
    [ simpl; tauto | simpl; tauto | ].
  destruct (conforms_field _ _ r "median" tNumber H) as (b & Hb & Hcb);
    [ simpl; tauto | simpl; tauto | ].
  destruct (conforms_field _ _ r "max" tNumber H) as (c & Hc & Hcc);
    [ simpl; tauto | simpl; tauto | ].
  destruct (conforms_number a Hca) as (lo & ->).
  destruct (conforms_number b Hcb) as (mid & ->).
  destruct (conforms_number c Hcc) as (hi & ->).
  exists lo, mid, hi. unfold numberAt. simpl. rewrite Ha, Hb, Hc.
  repeat split.
Qed.

(** Both ranges of a conforming reply are present and conform to the
    range schema. *)
Lemma conforms_ranges (v : Json.value) :
  conforms GeminiService.responseSchema v = true ->
  (exists r, Json.path marketRange v = Some r
             /\ conforms GeminiService.salaryRangeSchema r = true)
  /\ (exists r, Json.path nextRange v = Some r
                /\ conforms GeminiService.salaryRangeSchema r = true).
Proof.
  intros H. unfold GeminiService.responseSchema in H. split.
  - destruct (conforms_field _ _ v "marketAnalysis" _ H
                ltac:(simpl; tauto) ltac:(simpl; left; reflexivity))
      as (m & Hm & Hcm).
    destruct (conforms_field _ _ m "currentRoleMarketValue" _ Hcm
                ltac:(simpl; tauto) ltac:(simpl; left; reflexivity))
      as (r & Hr & Hcr).
    exists r. unfold marketRange. simpl. rewrite Hm, Hr. split; auto.
  - destruct (conforms_field _ _ v "nextCareerMove" _ H
                ltac:(simpl; tauto)
                ltac:(simpl; right; left; reflexivity))
      as (m & Hm & Hcm).
    destruct (conforms_field _ _ m "salaryRange" GeminiService.salaryRangeSchema
                Hcm ltac:(simpl; tauto) ltac:(simpl; tauto))
      as (r & Hr & Hcr).
    exists r. unfold nextRange. simpl. rewrite Hm, Hr. split; auto.
Qed.

(** A conforming reply is an object, hence truthy for the caller. *)
Lemma conforming_is_truthy (v : Json.value) :
  conforms GeminiService.responseSchema v = true -> Json.truthy v = true.
Proof.
  intros H. unfold GeminiService.responseSchema in H.
  destruct (conforms_object _ _ v H) as (ms & -> & _). reflexivity.
Qed.

(** C6: when the reply text is well-formed JSON that matches the declared
    schema, [analyzeCompensation] returns exactly the value the text
    denotes: every property path into the result reads what it reads in the
    parsed text, and the caller stores that same value as its results. *)
Theorem C6_conforming_reply_round_trips
    (digits : number -> string) (env : Env) (profile : UserProfile)
    (st : App.State) (w : World) (key text : string) (v : Json.value) :
  keyOf env = Some key ->
  generateContent env key (GeminiService.request digits profile)
    = Resolves (Val text) ->
  Json.parse text = Some v ->
  conforms GeminiService.responseSchema v = true ->
  GeminiService.analyzeCompensation digits env profile w
    = (Returns v, sent w key (GeminiService.request digits profile))
  /\ (forall out ks,
        fst (GeminiService.analyzeCompensation digits env profile w)
          = Returns out ->
        Json.path ks out = Json.path ks v)
  /\ App.results (fst (App.handleAnalysis digits env profile st w)) = Some v
  /\ App.error (fst (App.handleAnalysis digits env profile st w)) = None.
Proof.
  intros Hkey Hreply Hparse Hconf.
  assert (Htext : text <> EmptyString).
  { intros ->. rewrite parse_empty in Hparse. discriminate. }
  pose proof (analyze_text_reply digits env profile w key text
                Hkey Hreply Htext) as Hrun.
  rewrite Hparse in Hrun.
  pose proof (conforming_is_truthy v Hconf) as Htruthy.
  repeat split.
  - exact Hrun.
  - intros out ks Hout. rewrite Hrun in Hout. simpl in Hout.
    injection Hout as <-. reflexivity.
  - unfold App.handleAnalysis. rewrite Hrun, Htruthy. reflexivity.
  - unfold App.handleAnalysis. rewrite Hrun, Htruthy. reflexivity.
Qed.

(** C6 at a complete reply. *)
Lemma C6_witness :
  keyOf (envWith (Val "test-key") (Resolves (Val goodText))) = Some "test-key"
  /\ Json.parse goodText = Some goodValue
  /\ conforms GeminiService.responseSchema goodValue = true
  /\ fst (GeminiService.analyzeCompensation exactDigits
            (envWith (Val "test-key") (Resolves (Val goodText)))
            experienced quiet)
     = Returns goodValue
  /\ numberAt ["nextCareerMove"; "salaryRange"; "median"] goodValue
     = Some (ofZ 120000).
Proof.
  assert (Hparse : Json.parse goodText = Some goodValue)
    by (vm_compute; reflexivity).
  assert (Hconf : conforms GeminiService.responseSchema goodValue = true)
    by (vm_compute; reflexivity).
  split; [ reflexivity | split; [ exact Hparse | split; [ exact Hconf | ] ] ].
  destruct (C6_conforming_reply_round_trips exactDigits
              (envWith (Val "test-key") (Resolves (Val goodText)))
              experienced App.initialState quiet "test-key" goodText goodValue
              eq_refl eq_refl Hparse Hconf) as (Hrun & _).
  split; [ rewrite Hrun; reflexivity | vm_compute; reflexivity ].
Defined.

(** C7, as the code has it: [analyzeCompensation] returns every reply that
    parses, and for a reply that matches the declared schema the market
    range and the next-role range each carry a numeric [min], [median] and
    [max]; that is all the schema asks of a range. *)
Theorem C7_ranges_are_checked_for_shape_only
    (digits : number -> string) (env : Env) (profile : UserProfile)
    (w : World) (key text : string) (v : Json.value) :
  keyOf env = Some key ->
  generateContent env key (GeminiService.request digits profile)
    = Resolves (Val text) ->
  Json.parse text = Some v ->
  conforms GeminiService.responseSchema v = true ->
  GeminiService.analyzeCompensation digits env profile w
    = (Returns v, sent w key (GeminiService.request digits profile))
  /\ (forall where_, where_ = marketRange \/ where_ = nextRange ->
        exists r lo mid hi,
          Json.path where_ v = Some r
          /\ numberAt ["min"] r = Some lo
          /\ numberAt ["median"] r = Some mid
          /\ numberAt ["max"] r = Some hi).
Proof.
  intros Hkey Hreply Hparse Hconf.
  assert (Htext : text <> EmptyString).
  { intros ->. rewrite parse_empty in Hparse. discriminate. }
  pose proof (analyze_text_reply digits env profile w key text
                Hkey Hreply Htext) as Hrun.
  rewrite Hparse in Hrun. split; [ exact Hrun | ].
  destruct (conforms_ranges v Hconf) as [(r1 & Hp1 & Hc1) (r2 & Hp2 & Hc2)].
  intros where_ [-> | ->].
  - destruct (conforms_range r1 Hc1) as (lo & mid & hi & H).
    exists r1, lo, mid, hi. split; [ exact Hp1 | exact H ].
  - destruct (conforms_range r2 Hc2) as (lo & mid & hi & H).
    exists r2, lo, mid, hi. split; [ exact Hp2 | exact H ].
Qed.

(** C7 at a conforming reply with an upside-down range. *)
Lemma C7_witness :
  keyOf (envWith (Val "test-key") (Resolves (Val textWithBadRange)))
    = Some "test-key"
  /\ Json.parse textWithBadRange = Some valueWithBadRange
  /\ conforms GeminiService.responseSchema valueWithBadRange = true
  /\ fst (GeminiService.analyzeCompensation exactDigits
            (envWith (Val "test-key") (Resolves (Val textWithBadRange)))
            graduate quiet)
     = Returns valueWithBadRange.
Proof.
  assert (Hparse : Json.parse textWithBadRange = Some valueWithBadRange)
    by (vm_compute; reflexivity).
  assert (Hconf : conforms GeminiService.responseSchema valueWithBadRange
                  = true) by (vm_compute; reflexivity).
  split; [ reflexivity | split; [ exact Hparse | split; [ exact Hconf | ] ] ].
  destruct (C7_ranges_are_checked_for_shape_only exactDigits
              (envWith (Val "test-key") (Resolves (Val textWithBadRange)))
              graduate quiet "test-key" textWithBadRange valueWithBadRange
              eq_refl eq_refl Hparse Hconf) as (Hrun & _).
  rewrite Hrun. reflexivity.
Defined.

(** C7, as stated, fails: a reply whose market range has
    [min = 90000 > median = 50000 > max = -10] matches the declared schema
    and is returned by [analyzeCompensation], not rejected. *)
Lemma C7_counterexample :
  Json.parse textWithBadRange = Some valueWithBadRange
  /\ conforms GeminiService.responseSchema valueWithBadRange = true
  /\ Json.path marketRange valueWithBadRange = Some (range 90000 50000 (-10))
  /\ rangeOk (range 90000 50000 (-10)) = false
  /\ fst (GeminiService.analyzeCompensation exactDigits
            (envWith (Val "test-key") (Resolves (Val textWithBadRange)))
            experienced quiet)
     = Returns valueWithBadRange.
Proof. repeat split; vm_compute; reflexivity. Qed.

(* ================================================================== *)
(** ** Numeric normalisation *)
(* ================================================================== *)

Section Normalisation.

Variable digits : number -> string.

(** [safeNum] never yields NaN. *)
Lemma safeNum_not_NaN (v : nullable number) : isNaN (safeNum v) = false.
Proof.
  destruct v as [ | | x ]; try reflexivity.
  unfold safeNum. destruct (isNaN x) eqn:Hx; simpl; [ reflexivity | exact Hx ].
Qed.


Lemma safeNum_number (x : number) :
  isNaN x = false -> safeNum (Val x) = x.
Proof. intros H. unfold safeNum. rewrite H. reflexivity. Qed.


(** A monthly base of 5000 is an annual base of 60000. *)
Lemma annual_base_of_5000 (profile : UserProfile) :
  monthlyBaseSalary profile = Val (ofZ 5000) ->
  GeminiService.annualBaseSalary profile = ofZ 60000.
Proof.
  intros H. unfold GeminiService.annualBaseSalary, GeminiService.monthlyBase.
  rewrite H. vm_compute. reflexivity.
Qed.





Lemma safeNum_idempotent (v : nullable number) :
  safeNum (Val (safeNum v)) = safeNum v.
Proof. apply safeNum_number. apply safeNum_not_NaN. Qed.


End Normalisation.

(** Years of experience are not a compensation field.  The first revision
    of the service prints them twice: through [safeNum] on the profile line
    and raw on the task line, so a profile object whose [yearsExperience]
    is NaN reads "0 years" in one place and "NaN years" in the other.  The
    form marks that box as required, so it does not submit such a
    profile. *)
Lemma raw_experience_on_the_task_line (digits : number -> string) :
  GeminiService.totalComp clearedExperience = ofZ 0
  /\ includes (contents (GeminiService.request digits clearedExperience))
              "- Experience: 0 years" = true
  /\ includes (contents (GeminiService.request digits clearedExperience))
              "with NaN years experience" = true.
Proof. repeat split; vm_compute; reflexivity. Qed.

(* ================================================================== *)
(** ** Dashboard figures *)
(* ================================================================== *)

(** In the entry-aware dashboard a positive current total is its own
    baseline, and a zero one is replaced by the market median. *)
Lemma growth_entry_positive (results : CompensationInsights)
    (profile : UserProfile) :
  (ResultsDashboardEntry.currentAnnual profile > ofZ 0)%js = true ->
  ResultsDashboardEntry.growthPercentage results profile
  = (((ResultsDashboardEntry.nextAnnualMedian results
       - ResultsDashboardEntry.currentAnnual profile)
      / ResultsDashboardEntry.currentAnnual profile) * ofZ 100)%js.
Proof.
  intros H. unfold ResultsDashboardEntry.growthPercentage. rewrite H.
  reflexivity.
Qed.

Lemma growth_entry_zero (results : CompensationInsights)
    (profile : UserProfile) :
  isZero (ResultsDashboardEntry.currentAnnual profile) = true ->
  ResultsDashboardEntry.growthPercentage results profile
  = (((ResultsDashboardEntry.nextAnnualMedian results
       - ResultsDashboardEntry.targetEntryAnnual results)
      / ResultsDashboardEntry.targetEntryAnnual results) * ofZ 100)%js.
Proof.
  intros H. unfold ResultsDashboardEntry.growthPercentage.
  destruct (ResultsDashboardEntry.currentAnnual profile) as [ [ | ] | | | ];
    try discriminate; reflexivity.
Qed.

(** The two figures of the specification, on the entry-aware dashboard. *)
Lemma growth_entry_examples (profile : UserProfile) :
  (ResultsDashboardEntry.currentAnnual profile = ofZ 100000 ->
   forall market,
     ResultsDashboardEntry.growthPercentage
       (insightsWith market (ofZ 150000)) profile = ofZ 50)
  /\ (ResultsDashboardEntry.currentAnnual profile = ofZ 0 ->
      ResultsDashboardEntry.growthPercentage
        (insightsWith (ofZ 80000) (ofZ 120000)) profile = ofZ 50).
Proof.
  split.
  - intros H market. unfold ResultsDashboardEntry.growthPercentage.
    rewrite H. vm_compute. reflexivity.
  - intros H. unfold ResultsDashboardEntry.growthPercentage.
    rewrite H. vm_compute. reflexivity.
Qed.

(** The dashboard under [src/components] agrees on a positive baseline. *)
Lemma growth_plain_example (profile : UserProfile) :
  ResultsDashboard.currentAnnual profile = ofZ 100000 ->
  forall market,
    ResultsDashboard.growthPercentage
      (insightsWith market (ofZ 150000)) profile = ofZ 50.
Proof.
  intros H market. unfold ResultsDashboard.growthPercentage.
  rewrite H. vm_compute. reflexivity.
Qed.

(** C3: the dashboard under [src/components] has no fallback baseline: with
    a current annual compensation of 0, a market median of 80000 and a
    target median of 120000 its growth percentage is Infinity, where the
    entry-aware dashboard gives 50; and the entry-aware one still divides
    by zero when the market median itself is 0. *)
Theorem C3_growth_without_baseline_is_infinite :
  ResultsDashboard.currentAnnual clearedExperience = ofZ 0
  /\ ResultsDashboard.growthPercentage
       (insightsWith (ofZ 80000) (ofZ 120000)) clearedExperience
     = Infinity
  /\ ResultsDashboardEntry.growthPercentage
       (insightsWith (ofZ 80000) (ofZ 120000)) clearedExperience
     = ofZ 50
  /\ ResultsDashboardEntry.growthPercentage
       (insightsWith (ofZ 0) (ofZ 120000)) clearedExperience
     = Infinity.
Proof. repeat split; vm_compute; reflexivity. Qed.

(** C8: the currency symbol depends on the currency code alone, in both
    dashboards; it is "$" for USD, "€" for EUR, "£" for GBP, "৳" for BDT,
    "₹" for INR, and "$" for every other code, a missing one included. *)
Theorem C8_currency_symbol_table :
  (forall p, ResultsDashboard.currencySymbol p
             = currencySymbolOf (currency p))
  /\ (forall p, ResultsDashboardEntry.currencySymbol p
                = currencySymbolOf (currency p))
  /\ currencySymbolOf (Val "USD") = "$"
  /\ currencySymbolOf (Val "EUR") = "€"
  /\ currencySymbolOf (Val "GBP") = "£"
  /\ currencySymbolOf (Val "BDT") = "৳"
  /\ currencySymbolOf (Val "INR") = "₹"
  /\ (forall code,
        code <> Val "USD" -> code <> Val "EUR" -> code <> Val "GBP" ->
        code <> Val "BDT" -> code <> Val "INR" ->
        currencySymbolOf code = "$").
Proof.
  repeat split.
  intros code Husd Heur Hgbp Hbdt Hinr. unfold currencySymbolOf, strictEq.
  destruct code as [ | | s ]; try reflexivity.
  destruct (String.eqb_spec s "USD") as [-> | _]; [ congruence | ].
  destruct (String.eqb_spec s "EUR") as [-> | _]; [ congruence | ].
  destruct (String.eqb_spec s "GBP") as [-> | _]; [ congruence | ].
  destruct (String.eqb_spec s "BDT") as [-> | _]; [ congruence | ].
  destruct (String.eqb_spec s "INR") as [-> | _]; [ congruence | ].
  reflexivity.
Qed.

(** C8 at three codes outside the table, and at BDT. *)
Lemma C8_witness :
  currencySymbolOf (Val "JPY") = "$"
  /\ currencySymbolOf (Val "usd") = "$"
  /\ currencySymbolOf Undefined = "$"
  /\ ResultsDashboard.currencySymbol experienced = "৳".
Proof.
  destruct C8_currency_symbol_table
    as (Hplain & _ & _ & _ & _ & Hbdt & _ & Hother).
  split; [ apply Hother; discriminate | ].
  split; [ apply Hother; discriminate | ].
  split; [ apply Hother; discriminate | ].
  rewrite Hplain. exact Hbdt.
Defined.

(* ================================================================== *)
(** ** The feedback modal *)
(* ================================================================== *)

(** C9: whatever the relay does with the POST (accept it, answer with a
    non-success status, or fail to answer), [handleSubmit] sets the step to
    ['submitting'] and then to ['success'], and nothing else; when the POST
    did not succeed the error is written to the console just before. *)
Theorem C9_feedback_always_ends_in_success
    (digits : number -> string) (trim : string -> string)
    (relay : string -> Json.value -> FeedbackModal.fetchReply)
    (f : FeedbackModal.Fields) (m : FeedbackModal.Modal) :
  let m' := FeedbackModal.handleSubmit digits trim relay f m in
  FeedbackModal.step m' = FeedbackModal.success
  /\ FeedbackModal.steps m'
     = (FeedbackModal.steps m
        ++ [FeedbackModal.submitting; FeedbackModal.success])%list
  /\ FeedbackModal.posts m'
     = (FeedbackModal.posts m
        ++ [(FeedbackModal.url, FeedbackModal.payload digits trim f)])%list
  /\ ((forall body,
         relay FeedbackModal.url (FeedbackModal.payload digits trim f)
           <> FeedbackModal.FetchResolves true body) ->
      exists err,
        last (FeedbackModal.console m') (LogText EmptyString)
        = LogExn "Error sending feedback:" err).
Proof.
  cbv zeta. unfold FeedbackModal.handleSubmit, FeedbackModal.trySend.
  destruct (relay FeedbackModal.url (FeedbackModal.payload digits trim f))
    as [ e | [ | ] [ errorData | ] ] eqn:Hreply; simpl.
  all: split; [ reflexivity | ].
  all: split; [ rewrite <- app_assoc; reflexivity | ].
  all: split; [ reflexivity | ].
  all: intros Hfail; try (exfalso; eapply Hfail; reflexivity).
  all: eexists; rewrite last_last; reflexivity.
Qed.

(** C9 at a relay that answers with a non-success status and no body. *)
Lemma C9_witness :
  FeedbackModal.step
    (FeedbackModal.handleSubmit exactDigits (fun s => s)
       (fun _ _ => FeedbackModal.FetchResolves false None)
       {| FeedbackModal.rating := ofZ 4;
          FeedbackModal.email := "reader@example.org";
          FeedbackModal.missingFields := "Equity";
          FeedbackModal.improvements := "More currencies" |}
       FeedbackModal.opened)
  = FeedbackModal.success
  /\ exists err,
       last (FeedbackModal.console
               (FeedbackModal.handleSubmit exactDigits (fun s => s)
                  (fun _ _ => FeedbackModal.FetchResolves false None)
                  {| FeedbackModal.rating := ofZ 4;
                     FeedbackModal.email := "reader@example.org";
                     FeedbackModal.missingFields := "Equity";
                     FeedbackModal.improvements := "More currencies" |}
                  FeedbackModal.opened))
            (LogText EmptyString)
       = LogExn "Error sending feedback:" err.
Proof.
  destruct (C9_feedback_always_ends_in_success exactDigits (fun s => s)
              (fun _ _ => FeedbackModal.FetchResolves false None)
              {| FeedbackModal.rating := ofZ 4;
                 FeedbackModal.email := "reader@example.org";
                 FeedbackModal.missingFields := "Equity";
                 FeedbackModal.improvements := "More currencies" |}
              FeedbackModal.opened) as (Hstep & _ & _ & Hlog).
  split; [ exact Hstep | ].
  apply Hlog. intros body. discriminate.
Defined.

(* ================================================================== *)
(** ** Entry-level mode: the inactive fields do not reach the request *)
(* ================================================================== *)

Lemma entry_prompt_reads_entry_fields (digits : number -> string)
    (p1 p2 : UserProfile) :
  sameEntryFields p1 p2 ->
  GeminiServiceEntry.entryPrompt digits p1
  = GeminiServiceEntry.entryPrompt digits p2.
Proof.
  intros (Hrole & Hedu & Hskills & Hproj & Hloc & Hind & Hcur & Hexp).
  unfold GeminiServiceEntry.entryPrompt.
  rewrite Hrole, Hedu, Hskills, Hproj, Hloc, Hind, Hcur, Hexp.
  reflexivity.
Qed.

(** The configuration attached to the request is one constant. *)
Lemma entry_config_is_fixed (digits : number -> string)
    (p1 p2 : UserProfile) :
  config (GeminiServiceEntry.request digits p1)
  = config (GeminiServiceEntry.request digits p2).
Proof. reflexivity. Qed.

(** C10: two entry-level profiles that agree on role, education, skills,
    project details, location, industry, currency and expected salary give
    the same outgoing request, hence the same exchange, whatever their
    experienced-mode fields hold; the response schema attached to the
    request is the same for every profile, entry-level or not. *)
Theorem C10_entry_request_ignores_experienced_fields
    (digits : number -> string) (env : Env) (p1 p2 : UserProfile)
    (w : World) :
  isEntryLevel p1 = Val true ->
  isEntryLevel p2 = Val true ->
  sameEntryFields p1 p2 ->
  GeminiServiceEntry.request digits p1 = GeminiServiceEntry.request digits p2
  /\ GeminiServiceEntry.analyzeCompensation digits env p1 w
     = GeminiServiceEntry.analyzeCompensation digits env p2 w
  /\ (forall p q,
        responseSchema (config (GeminiServiceEntry.request digits p))
        = responseSchema (config (GeminiServiceEntry.request digits q))).
Proof.
  intros H1 H2 Hsame.
  assert (Hreq : GeminiServiceEntry.request digits p1
                 = GeminiServiceEntry.request digits p2).
  { unfold GeminiServiceEntry.request, GeminiServiceEntry.prompt.
    rewrite H1, H2. simpl truthyBool. cbv iota.
    rewrite (entry_prompt_reads_entry_fields digits p1 p2 Hsame).
    reflexivity. }
  split; [ exact Hreq | split ].
  - unfold GeminiServiceEntry.analyzeCompensation. rewrite Hreq. reflexivity.
  - intros p q. reflexivity.
Qed.

(** C10 at a graduate with and without experienced-mode figures. *)
Lemma C10_witness :
  isEntryLevel graduate = Val true
  /\ isEntryLevel graduateWithPay = Val true
  /\ sameEntryFields graduate graduateWithPay
  /\ monthlyBaseSalary graduate <> monthlyBaseSalary graduateWithPay
  /\ yearsExperience graduate <> yearsExperience graduateWithPay
  /\ benefits graduate <> benefits graduateWithPay
  /\ GeminiServiceEntry.request exactDigits graduate
     = GeminiServiceEntry.request exactDigits graduateWithPay.
Proof.
  assert (Hsame : sameEntryFields graduate graduateWithPay)
    by (repeat split).
  split; [ reflexivity | split; [ reflexivity | split; [ exact Hsame | ] ] ].
  split; [ discriminate | split; [ discriminate | split; [ discriminate | ] ] ].
  destruct (C10_entry_request_ignores_experienced_fields exactDigits
              (envWith (Val "test-key") (Resolves (Val goodText)))
              graduate graduateWithPay quiet eq_refl eq_refl Hsame)
    as (Hreq & _).
  exact Hreq.
Defined.

(* ================================================================== *)
(** ** The exchange adapter: requests, failures and the caller *)
(* ================================================================== *)

(** X1: with a credential, [analyzeCompensation] sends exactly one request,
    the one built from the profile, to the client built with that
    credential, whatever the reply is; a returned value leaves the console
    untouched and a failure adds exactly one line, carrying the error that
    is rethrown. *)
Theorem one_request_one_log_line
    (digits : number -> string) (env : Env) (profile : UserProfile)
    (w : World) (key : string) :
  keyOf env = Some key ->
  let out := GeminiService.analyzeCompensation digits env profile w in
  calls (snd out)
    = (calls w ++ [(key, GeminiService.request digits profile)])%list
  /\ (forall v, fst out = Returns v ->
                Runtime.console (snd out) = Runtime.console w)
  /\ (forall e, fst out = Throws e ->
                Runtime.console (snd out)
                = (Runtime.console w
                   ++ [LogExn "Error fetching Gemini analysis:" e])%list).
Proof.
  intros Hkey. cbv zeta.
  rewrite (analyze_with_key digits env profile w key Hkey). cbv zeta.
  destruct (generateContent env key (GeminiService.request digits profile))
    as [ text | e' ].
  - destruct (noText text) eqn:Hno.
    + repeat split; simpl; intros; discriminate || reflexivity.
    + destruct text as [ | | t ]; try discriminate.
      destruct (Json.parse t) as [ v' | ]; repeat split; simpl;
        intros x Hx; try discriminate; try reflexivity.
      injection Hx as <-. reflexivity.
  - repeat split; simpl; intros x Hx; try discriminate.
    injection Hx as <-. reflexivity.
Qed.

(** X1 at a reply that was cut off: one request, one console line. *)
Lemma one_request_one_log_line_witness :
  keyOf (envWith (Val "test-key") (Resolves (Val truncatedText)))
    = Some "test-key"
  /\ List.length
       (calls (snd (GeminiService.analyzeCompensation exactDigits
                      (envWith (Val "test-key")
                               (Resolves (Val truncatedText)))
                      experienced quiet)))
     = 1%nat.
Proof.
  split; [ reflexivity | ].
  destruct (one_request_one_log_line exactDigits
              (envWith (Val "test-key") (Resolves (Val truncatedText)))
              experienced quiet "test-key" eq_refl) as (Hcalls & _).
  rewrite Hcalls. reflexivity.
Defined.

(** X2: what the client rejects with is rethrown unchanged; the caller
    then stops loading, keeps its results, and shows the generic failure
    message, unless the rejection's message happens to be the sentinel
    text, in which case it shows the configuration message. *)
Theorem rejection_is_rethrown
    (digits : number -> string) (env : Env) (profile : UserProfile)
    (st : App.State) (w : World) (key : string) (e : exn) :
  keyOf env = Some key ->
  generateContent env key (GeminiService.request digits profile)
    = Rejects e ->
  fst (GeminiService.analyzeCompensation digits env profile w) = Throws e
  /\ App.error (fst (App.handleAnalysis digits env profile st w))
     = Some (if messageIs e "MISSING_API_KEY"
             then App.msgMissingKey else App.msgFailed)
  /\ App.results (fst (App.handleAnalysis digits env profile st w))
     = App.results st
  /\ App.isLoading (fst (App.handleAnalysis digits env profile st w))
     = false.
Proof.
  intros Hkey Hreply.
  pose proof (analyze_with_key digits env profile w key Hkey) as Hrun.
  cbv zeta in Hrun. rewrite Hreply in Hrun.
  unfold App.handleAnalysis. rewrite Hrun. simpl.
  destruct (messageIs e "MISSING_API_KEY"); repeat split.
Qed.

(** X2 at a network failure. *)
Lemma rejection_is_rethrown_witness :
  keyOf (envWith (Val "test-key") (Rejects (Rejection "fetch failed")))
    = Some "test-key"
  /\ App.error (fst (App.handleAnalysis exactDigits
                       (envWith (Val "test-key")
                                (Rejects (Rejection "fetch failed")))
                       experienced App.initialState quiet))
     = Some App.msgFailed.
Proof.
  split; [ reflexivity | ].
  destruct (rejection_is_rethrown exactDigits
              (envWith (Val "test-key") (Rejects (Rejection "fetch failed")))
              experienced App.initialState quiet "test-key"
              (Rejection "fetch failed") eq_refl eq_refl)
    as (_ & Herr & _).
  exact Herr.
Defined.

(** X3: the caller keeps a parsed reply exactly when it is truthy: the
    JSON texts [null], [0], [false] and the empty string literal end in
    the "could not generate" message with the results untouched, while any
    other value, object or not, becomes the results of the dashboard. *)
Theorem caller_keeps_truthy_replies
    (digits : number -> string) (env : Env) (profile : UserProfile)
    (st : App.State) (w : World) (key text : string) (v : Json.value) :
  keyOf env = Some key ->
  generateContent env key (GeminiService.request digits profile)
    = Resolves (Val text) ->
  Json.parse text = Some v ->
  let st' := fst (App.handleAnalysis digits env profile st w) in
  (Json.truthy v = true ->
   App.results st' = Some v /\ App.error st' = None)
  /\ (Json.truthy v = false ->
      App.results st' = App.results st /\ App.error st' = Some App.msgEmpty).
Proof.
  intros Hkey Hreply Hparse.
  assert (Htext : text <> EmptyString).
  { intros ->. rewrite parse_empty in Hparse. discriminate. }
  pose proof (analyze_text_reply digits env profile w key text
                Hkey Hreply Htext) as Hrun.
  rewrite Hparse in Hrun. cbv zeta. unfold App.handleAnalysis.
  rewrite Hrun. split; intros ->; split; reflexivity.
Qed.

(** X3 at the JSON text [null] and at an empty array. *)
Lemma caller_keeps_truthy_replies_witness :
  App.error (fst (App.handleAnalysis exactDigits
                    (envWith (Val "test-key") (Resolves (Val "null")))
                    experienced App.initialState quiet))
  = Some App.msgEmpty
  /\ App.results (fst (App.handleAnalysis exactDigits
                         (envWith (Val "test-key") (Resolves (Val "[]")))
                         experienced App.initialState quiet))
     = Some (Json.JArray []).
Proof.
  split.
  - destruct (caller_keeps_truthy_replies exactDigits
                (envWith (Val "test-key") (Resolves (Val "null")))
                experienced App.initialState quiet "test-key" "null"
                Json.JNull eq_refl eq_refl eq_refl) as (_ & Hfalsy).
    destruct (Hfalsy eq_refl) as (_ & Herr). exact Herr.
  - destruct (caller_keeps_truthy_replies exactDigits
                (envWith (Val "test-key") (Resolves (Val "[]")))
                experienced App.initialState quiet "test-key" "[]"
                (Json.JArray []) eq_refl eq_refl eq_refl) as (Htruthy & _).
    destruct (Htruthy eq_refl) as (Hres & _). exact Hres.
Defined.

(* ================================================================== *)
(** ** Totals of non-negative figures *)
(* ================================================================== *)

Section Rounding.

Lemma shr_1_keeps_sign (mrs : shr_record) :
  0 <= shr_m mrs -> 0 <= shr_m (shr_1 mrs).
Proof.
  destruct mrs as [m r s]. simpl.
  destruct m as [ | [ p | p | ] | p ]; simpl; lia.
Qed.

Lemma iter_shr_1_keeps_sign (p : positive) (mrs : shr_record) :
  0 <= shr_m mrs -> 0 <= shr_m (iter_pos shr_1 p mrs).
Proof.
  revert mrs. induction p as [ p IH | p IH | ]; intros mrs H; simpl.
  - apply IH, IH, shr_1_keeps_sign, H.
  - apply IH, IH, H.
  - apply shr_1_keeps_sign, H.
Qed.

Lemma shr_fexp_keeps_sign (m e : Z) (l : SpecFloat.location) :
  0 <= m -> 0 <= shr_m (fst (shr_fexp prec emax m e l)).
Proof.
  intros H. unfold shr_fexp, shr.
  assert (H0 : 0 <= shr_m (shr_record_of_loc m l)).
  { destruct l as [ | [ | | ] ]; simpl; exact H. }
  destruct (fexp prec emax (Zdigits2 m + e) - e) as [ | p | p ]; simpl;
    try exact H0.
  apply iter_shr_1_keeps_sign, H0.
Qed.

Lemma round_nearest_even_keeps_sign (m : Z) (l : SpecFloat.location) :
  0 <= m -> 0 <= round_nearest_even m l.
Proof.
  intros H. destruct l as [ | [ | | ] ]; simpl; try lia.
  destruct (Z.even m); lia.
Qed.

(** Rounding a non-negative significand gives +0, a positive Number or
    +Infinity, never NaN. *)
Lemma rounding_is_not_negative (m e : Z) (l : SpecFloat.location) :
  0 <= m ->
  JsNumber.leb (ofZ 0) (binary_round_aux prec emax false m e l) = true.
Proof.
  intros H. unfold binary_round_aux.
  pose proof (shr_fexp_keeps_sign m e l H) as H1.
  destruct (shr_fexp prec emax m e l) as [mrs' e'].
  simpl in H1.
  pose proof (shr_fexp_keeps_sign
                (round_nearest_even (shr_m mrs') (loc_of_shr_record mrs'))
                e' loc_Exact (round_nearest_even_keeps_sign _ _ H1)) as H2.
  destruct (shr_fexp prec emax
              (round_nearest_even (shr_m mrs') (loc_of_shr_record mrs'))
              e' loc_Exact) as [mrs'' e''].
  simpl in H2.
  destruct (shr_m mrs'') as [ | p | p ].
  - reflexivity.
  - destruct (e'' <=? emax - prec); reflexivity.
  - lia.
Qed.

Lemma sum_is_not_negative (x y : number) :
  JsNumber.leb (ofZ 0) x = true -> JsNumber.leb (ofZ 0) y = true ->
  JsNumber.leb (ofZ 0) (x + y)%js = true.
Proof.
  destruct x as [ [ | ] | [ | ] | | [ | ] mx ex ];
    destruct y as [ [ | ] | [ | ] | | [ | ] my ey ];
    try discriminate; try reflexivity; intros _ _.
  unfold JsNumber.add, SFadd, binary_normalize. simpl Z.add.
  unfold binary_round.
  match goal with
  | |- context [shl_align ?a ?b ?c] => destruct (shl_align a b c) as [mz ez]
  end.
  apply rounding_is_not_negative. lia.
Qed.

Lemma product_is_not_negative (x : number) (m : positive) (e : Z) :
  JsNumber.leb (ofZ 0) x = true ->
  JsNumber.leb (ofZ 0) (x * S754_finite false m e)%js = true.
Proof.
  destruct x as [ [ | ] | [ | ] | | [ | ] mx ex ];
    try discriminate; try reflexivity; intros _.
  unfold JsNumber.mul, SFmul. simpl xorb.
  apply rounding_is_not_negative. lia.
Qed.

Lemma times_12_is_not_negative (x : number) :
  JsNumber.leb (ofZ 0) x = true ->
  JsNumber.leb (ofZ 0) (x * ofZ 12)%js = true.
Proof. apply product_is_not_negative. Qed.

Lemma not_negative_is_a_number (x : number) :
  JsNumber.leb (ofZ 0) x = true -> isNaN x = false.
Proof. destruct x; try reflexivity. discriminate. Qed.

Lemma safeNum_is_not_negative (v : nullable number) :
  notNegative v -> JsNumber.leb (ofZ 0) (safeNum v) = true.
Proof.
  destruct v as [ | | x ]; simpl; try reflexivity.
  intros [Hnan | Hpos].
  - rewrite Hnan. reflexivity.
  - rewrite (not_negative_is_a_number x Hpos). exact Hpos.
Qed.

Lemma numOr_is_not_negative (v : nullable number) :
  notNegative v -> JsNumber.leb (ofZ 0) (numOr v (ofZ 0)) = true.
Proof.
  destruct v as [ | | x ]; simpl; try reflexivity.
  intros [Hnan | Hpos].
  - unfold truthy. rewrite Hnan. reflexivity.
  - destruct (truthy x); [ exact Hpos | reflexivity ].
Qed.

End Rounding.

Ltac not_negative_sum :=
  repeat apply sum_is_not_negative;
  try apply times_12_is_not_negative;
  first [ apply safeNum_is_not_negative | apply numOr_is_not_negative ];
  assumption.





(** X4: when every compensation field of the profile is missing, NaN or a
    Number [>= 0] (+Infinity included), the total the service computes is
    a Number [>= 0] and not NaN, and so is each annualised figure. *)
Theorem total_is_a_non_negative_number (profile : UserProfile) :
  compensationNotNegative profile ->
  JsNumber.leb (ofZ 0) (GeminiService.totalComp profile) = true
  /\ isNaN (GeminiService.totalComp profile) = false
  /\ isNaN (GeminiService.annualBaseSalary profile) = false
  /\ isNaN (GeminiService.annualIncentive profile) = false
  /\ isNaN (GeminiService.annualOvertime profile) = false.
Proof.
  intros (H1 & H2 & H3 & H4 & H5 & H6 & H7).
  assert (Htotal : JsNumber.leb (ofZ 0) (GeminiService.totalComp profile)
                   = true).
  { unfold GeminiService.totalComp, GeminiService.annualBaseSalary,
      GeminiService.annualIncentive, GeminiService.annualOvertime,
      GeminiService.monthlyBase, GeminiService.monthlyInc,
      GeminiService.monthlyOver, GeminiService.profitShare,
      GeminiService.festival, GeminiService.pf, GeminiService.grat.
    not_negative_sum. }
  split; [ exact Htotal | ].
  split; [ exact (not_negative_is_a_number _ Htotal) | ].
  repeat split; apply not_negative_is_a_number;
    unfold GeminiService.annualBaseSalary, GeminiService.annualIncentive,
      GeminiService.annualOvertime, GeminiService.monthlyBase,
      GeminiService.monthlyInc, GeminiService.monthlyOver;
    apply times_12_is_not_negative, safeNum_is_not_negative; assumption.
Qed.

(** X4 at a profile with a NaN, a null and an undefined figure. *)
Lemma total_is_a_non_negative_number_witness :
  compensationNotNegative experienced
  /\ GeminiService.totalComp experienced = ofZ 73000
  /\ isNaN (GeminiService.totalComp experienced) = false.
Proof.
  assert (H : compensationNotNegative experienced).
  { unfold compensationNotNegative, notNegative. simpl.
    repeat split; try (right; reflexivity); try (left; reflexivity). }
  split; [ exact H | split; [ vm_compute; reflexivity | ] ].
  destruct (total_is_a_non_negative_number experienced H) as (_ & Hnan & _).
  exact Hnan.
Defined.

(** X5: under the same condition the current annual compensation that
    either dashboard derives from the profile is a Number [>= 0] and not
    NaN, and in the entry-aware dashboard so is the annualised expected
    salary when that field is missing, NaN or [>= 0]. *)
Theorem dashboard_totals_are_non_negative_numbers (profile : UserProfile) :
  compensationNotNegative profile ->
  notNegative (expectedSalary profile) ->
  JsNumber.leb (ofZ 0) (ResultsDashboard.currentAnnual profile) = true
  /\ isNaN (ResultsDashboard.currentAnnual profile) = false
  /\ JsNumber.leb (ofZ 0) (ResultsDashboardEntry.currentAnnual profile) = true
  /\ isNaN (ResultsDashboardEntry.currentAnnual profile) = false
  /\ JsNumber.leb (ofZ 0) (ResultsDashboardEntry.expectedAnnual profile)
     = true.
Proof.
  intros (H1 & H2 & H3 & H4 & H5 & H6 & H7) H8.
  assert (Hplain : JsNumber.leb (ofZ 0) (ResultsDashboard.currentAnnual profile)
                   = true).
  { unfold ResultsDashboard.currentAnnual. not_negative_sum. }
  assert (Hentry : JsNumber.leb (ofZ 0)
                     (ResultsDashboardEntry.currentAnnual profile) = true).
  { unfold ResultsDashboardEntry.currentAnnual. not_negative_sum. }
  repeat split; try assumption.
  - exact (not_negative_is_a_number _ Hplain).
  - exact (not_negative_is_a_number _ Hentry).
  - unfold ResultsDashboardEntry.expectedAnnual.
    apply times_12_is_not_negative, numOr_is_not_negative. exact H8.
Qed.

(** X5 at the same profile. *)
Lemma dashboard_totals_are_non_negative_numbers_witness :
  compensationNotNegative experienced
  /\ notNegative (expectedSalary experienced)
  /\ isNaN (ResultsDashboard.currentAnnual experienced) = false
  /\ isNaN (ResultsDashboardEntry.currentAnnual experienced) = false.
Proof.
  assert (H : compensationNotNegative experienced).
  { unfold compensationNotNegative, notNegative. simpl.
    repeat split; try (right; reflexivity); try (left; reflexivity). }
  split; [ exact H | split; [ exact I | ] ].
  destruct (dashboard_totals_are_non_negative_numbers experienced H I)
    as (_ & Hplain & _ & Hentry & _).
  split; [ exact Hplain | exact Hentry ].
Defined.

(* ================================================================== *)
(** ** Marker positions on the market track *)
(* ================================================================== *)

Section Track.

(** Comparing the other way round gives the opposite answer. *)
Lemma SFcompare_swap (x y : number) :
  SFcompare y x = option_map CompOpp (SFcompare x y).
Proof.
  destruct x as [ sx | [ | ] | | [ | ] mx ex ];
    destruct y as [ sy | [ | ] | | [ | ] my ey ];
    try reflexivity; simpl.
  all: rewrite (Z.compare_antisym ex ey).
  all: destruct (ex ?= ey); simpl; try reflexivity.
  all: rewrite (Pos.compare_cont_antisym mx my Eq); simpl.
  all: rewrite ?CompOpp_involutive; reflexivity.
Qed.

(** Two Numbers neither of which is greater than the other compare as
    less-or-equal both ways. *)
Lemma neither_greater (x y : number) :
  isNaN x = false -> isNaN y = false ->
  (x > y)%js = false -> (y > x)%js = false ->
  JsNumber.leb x y = true /\ JsNumber.leb y x = true.
Proof.
  unfold JsNumber.gtb, JsNumber.leb, SFltb, SFleb. intros Hx Hy.
  rewrite (SFcompare_swap x y).
  destruct (SFcompare x y) as [ [ | | ] | ] eqn:Hc; simpl;
    try discriminate; try (split; reflexivity).
  destruct x; destruct y; simpl in *; discriminate.
Qed.

Lemma greater_is_at_least (x y : number) :
  (x > y)%js = true -> JsNumber.leb y x = true.
Proof.
  unfold JsNumber.gtb, JsNumber.leb, SFltb, SFleb.
  destruct (SFcompare y x) as [ [ | | ] | ]; try discriminate; reflexivity.
Qed.

(** [Math.max(r, 0)] of a Number is a Number [>= 0]. *)
Lemma max_with_zero (r : number) :
  isNaN r = false ->
  isNaN (JsMath.max r (ofZ 0)) = false
  /\ JsNumber.leb (ofZ 0) (JsMath.max r (ofZ 0)) = true.
Proof.
  destruct r as [ [ | ] | [ | ] | | [ | ] m e ]; try discriminate;
    intros _; split; reflexivity.
Qed.

(** [Math.min(y, 100)] of a Number [>= 0] lies between 0 and 100. *)
Lemma min_with_hundred (y : number) :
  isNaN y = false -> JsNumber.leb (ofZ 0) y = true ->
  JsNumber.leb (ofZ 0) (JsMath.min y (ofZ 100)) = true
  /\ JsNumber.leb (JsMath.min y (ofZ 100)) (ofZ 100) = true.
Proof.
  intros Hy Hpos. unfold JsMath.min. rewrite Hy. simpl orb. cbv iota.
  destruct (y > ofZ 100)%js eqn:Hgt; [ split; reflexivity | ].
  destruct (ofZ 100 > y)%js eqn:Hlt.
  - split; [ exact Hpos | exact (greater_is_at_least _ _ Hlt) ].
  - destruct (neither_greater y (ofZ 100) Hy eq_refl Hgt Hlt) as [Hle _].
    destruct y as [ [ | ] | | | ]; try discriminate;
      split; first [ exact Hpos | exact Hle | reflexivity ].
Qed.

Lemma finite_minus_itself (x : number) :
  isFinite x = true -> (x - x)%js = S754_zero false.
Proof.
  destruct x as [ [ | ] | | | s m e ]; try discriminate; try reflexivity.
  intros _. unfold JsNumber.sub, SFsub. rewrite Z.sub_diag. reflexivity.
Qed.

End Track.

(** X6: every marker position that [MarketSpectrum] computes is either NaN
    or a percentage between 0 and 100, and it is NaN exactly when the
    unclamped ratio [(val - min) / (max - min) * 100] is. *)
Theorem getPos_is_a_percentage_or_NaN (min max val : number) :
  let raw := (((val - min) / (max - min)) * ofZ 100)%js in
  let pos := MarketSpectrum.getPos min max val in
  (isNaN raw = true -> pos = NaN)
  /\ (isNaN raw = false ->
      isNaN pos = false
      /\ JsNumber.leb (ofZ 0) pos = true
      /\ JsNumber.leb pos (ofZ 100) = true).
Proof.
  cbv zeta. unfold MarketSpectrum.getPos.
  set (raw := (((val - min) / (max - min)) * ofZ 100)%js).
  split.
  - intros Hnan. destruct raw; try discriminate. reflexivity.
  - intros Hnum.
    destruct (max_with_zero raw Hnum) as [Hy Hpos].
    destruct (min_with_hundred _ Hy Hpos) as [Hlo Hhi].
    split; [ | split; assumption ].
    exact (not_negative_is_a_number _ Hlo).
Qed.

(** X6 at a salary of 73000 on a 60000 to 110000 range: 26 percent. *)
Lemma getPos_is_a_percentage_or_NaN_witness :
  MarketSpectrum.getPos (ofZ 60000) (ofZ 110000) (ofZ 73000) = ofZ 26
  /\ JsNumber.leb (MarketSpectrum.getPos (ofZ 60000) (ofZ 110000) (ofZ 73000))
                  (ofZ 100) = true.
Proof.
  split; [ vm_compute; reflexivity | ].
  destruct (getPos_is_a_percentage_or_NaN (ofZ 60000) (ofZ 110000)
              (ofZ 73000)) as (_ & Hnum).
  destruct (Hnum eq_refl) as (_ & _ & Hhi). exact Hhi.
Defined.

(** X7: for a finite minimum, the minimum itself sits at 0 percent as soon
    as [max - min] is a positive finite Number; on a degenerate range,
    [max = min], its position is NaN. *)
Theorem getPos_of_the_minimum (min max : number) :
  isFinite min = true ->
  (forall m e, (max - min)%js = S754_finite false m e ->
               MarketSpectrum.getPos min max min = ofZ 0)
  /\ (max = min -> MarketSpectrum.getPos min max min = NaN).
Proof.
  intros Hfin. unfold MarketSpectrum.getPos. split.
  - intros m e Hspan. rewrite Hspan, (finite_minus_itself min Hfin).
    reflexivity.
  - intros ->. rewrite (finite_minus_itself min Hfin). reflexivity.
Qed.

(** X7 on a proper and on a degenerate range. *)
Lemma getPos_of_the_minimum_witness :
  isFinite (ofZ 60000) = true
  /\ MarketSpectrum.getPos (ofZ 60000) (ofZ 110000) (ofZ 60000) = ofZ 0
  /\ MarketSpectrum.getPos (ofZ 60000) (ofZ 60000) (ofZ 60000) = NaN.
Proof.
  split; [ reflexivity | ].
  destruct (getPos_of_the_minimum (ofZ 60000) (ofZ 110000) eq_refl)
    as (Hproper & _).
  destruct (getPos_of_the_minimum (ofZ 60000) (ofZ 60000) eq_refl)
    as (_ & Hflat).
  split.
  - eapply Hproper. vm_compute. reflexivity.
  - apply Hflat. reflexivity.
Defined.

(* ================================================================== *)
(** ** The application shell as a transition system *)
(* ================================================================== *)

(** The handler run in one piece is its first half followed by its
    second half. *)
Lemma handleAnalysis_in_two_halves
    (digits : number -> string) (env : Env) (profile : UserProfile)
    (st : App.State) (w : World) :
  App.handleAnalysis digits env profile st w
  = (AppMachine.settleAnalysis
       (fst (GeminiService.analyzeCompensation digits env profile w))
       (AppMachine.beginAnalysis profile st),
     AppMachine.settleWorld
       (fst (GeminiService.analyzeCompensation digits env profile w))
       (snd (GeminiService.analyzeCompensation digits env profile w))).
Proof.
  unfold App.handleAnalysis, AppMachine.settleAnalysis,
    AppMachine.settleWorld, AppMachine.beginAnalysis.
  destruct (GeminiService.analyzeCompensation digits env profile w)
    as [ [ data | err ] w1 ]; simpl.
  - destruct (Json.truthy data); reflexivity.
  - destruct (messageIs err "MISSING_API_KEY"); reflexivity.
Qed.

Lemma settled_ui (digits : number -> string) (env : Env)
    (profile : UserProfile) (rest : list UserProfile)
    (m : AppMachine.Machine) :
  AppMachine.ui (AppMachine.settled digits env profile rest m)
  = AppMachine.settleAnalysis
      (fst (GeminiService.analyzeCompensation digits env profile
              (AppMachine.world m)))
      (AppMachine.ui m)
  /\ AppMachine.pending (AppMachine.settled digits env profile rest m)
     = rest.
Proof.
  unfold AppMachine.settled.
  destruct (GeminiService.analyzeCompensation digits env profile
              (AppMachine.world m)) as [outcome w1].
  split; reflexivity.
Qed.

Lemma settle_stops_loading (outcome : result Json.value) (st : App.State) :
  App.isLoading (AppMachine.settleAnalysis outcome st) = false.
Proof.
  destruct outcome as [ data | err ]; simpl; [ | reflexivity ].
  destruct (Json.truthy data); reflexivity.
Qed.

Lemma settle_keeps_results_truthy (outcome : result Json.value)
    (st : App.State) :
  (forall v, App.results st = Some v -> Json.truthy v = true) ->
  forall v, App.results (AppMachine.settleAnalysis outcome st) = Some v ->
            Json.truthy v = true.
Proof.
  intros Hst v. destruct outcome as [ data | err ]; simpl.
  - destruct (Json.truthy data) eqn:Ht; simpl.
    + intros H. injection H as <-. exact Ht.
    + apply Hst.
  - apply Hst.
Qed.

(** X8: in every state the application can reach, through submissions of
    the rendered form, clicks on the logo at any moment and replies of any
    kind, at most one exchange is outstanding, the loading flag is on
    exactly while one is, an error message is only present while nothing
    is loading, and stored results are truthy. *)
Theorem one_exchange_at_a_time (digits : number -> string)
    (m : AppMachine.Machine) :
  AppMachine.reachable digits m ->
  (List.length (AppMachine.pending m) <= 1)%nat
  /\ (App.isLoading (AppMachine.ui m) = true <-> AppMachine.pending m <> [])
  /\ (App.error (AppMachine.ui m) <> None ->
      App.isLoading (AppMachine.ui m) = false)
  /\ (forall v, App.results (AppMachine.ui m) = Some v ->
                Json.truthy v = true).
Proof.
  induction 1 as [ | m m' Hreach (Hlen & Hflag & Herr & Hres) Hstep ].
  - split; [ simpl; lia | ].
    split; [ simpl; split; [ discriminate | congruence ] | ].
    split; [ reflexivity | discriminate ].
  - destruct Hstep as [ m profile shown Hview | m env profile rest Hpend | m ].
    + assert (Hidle : App.isLoading (AppMachine.ui m) = false).
      { unfold AppMachine.view in Hview.
        destruct (App.isLoading (AppMachine.ui m)); [ discriminate | ].
        reflexivity. }
      assert (Hnone : AppMachine.pending m = []).
      { destruct (AppMachine.pending m) as [ | p ps ] eqn:Hp;
          [ reflexivity | ].
        assert (Hon : App.isLoading (AppMachine.ui m) = true)
          by (apply Hflag; discriminate).
        congruence. }
      unfold AppMachine.submitted. simpl. rewrite Hnone. simpl.
      split; [ lia | ].
      split; [ split; [ discriminate | reflexivity ] | ].
      split; [ congruence | exact Hres ].
    + destruct (settled_ui digits env profile rest m) as [Hui Hrest].
      rewrite Hui, Hrest. rewrite Hpend in Hlen. simpl in Hlen.
      assert (Hempty : rest = [])
        by (destruct rest; simpl in Hlen; [ reflexivity | lia ]).
      subst rest. rewrite settle_stops_loading.
      split; [ simpl; lia | ].
      split; [ split; [ discriminate | congruence ] | ].
      split; [ reflexivity | ].
      apply settle_keeps_results_truthy. exact Hres.
    + unfold AppMachine.reset, App.handleReset. simpl.
      split; [ exact Hlen | ].
      split; [ exact Hflag | ].
      split; [ congruence | discriminate ].
Qed.

(** X8 right after a first submission. *)
Lemma one_exchange_at_a_time_witness :
  AppMachine.reachable exactDigits
    (AppMachine.submitted experienced AppMachine.start)
  /\ App.isLoading
       (AppMachine.ui (AppMachine.submitted experienced AppMachine.start))
     = true
  /\ (List.length
        (AppMachine.pending
           (AppMachine.submitted experienced AppMachine.start)) <= 1)%nat.
Proof.
  assert (Hreach : AppMachine.reachable exactDigits
                     (AppMachine.submitted experienced AppMachine.start)).
  { eapply AppMachine.reach_step; [ apply AppMachine.reach_start | ].
    eapply AppMachine.Submit. reflexivity. }
  split; [ exact Hreach | ].
  destruct (one_exchange_at_a_time exactDigits _ Hreach)
    as (Hlen & Hflag & _).
  split; [ apply Hflag; discriminate | exact Hlen ].
Defined.

(** X9: a click on the logo while an exchange is outstanding does not
    cancel it.  When its reply arrives the results are stored although the
    profile has been cleared, so the form stays on screen; if the next
    submission then fails, the dashboard comes up with the earlier reply
    next to the later profile, and the error message is not rendered. *)
Theorem reset_while_loading_leaves_stale_results
    (digits : number -> string) (env1 env2 : Env) (p1 p2 : UserProfile)
    (key1 key2 text : string) (v : Json.value) (e : exn) :
  keyOf env1 = Some key1 ->
  generateContent env1 key1 (GeminiService.request digits p1)
    = Resolves (Val text) ->
  Json.parse text = Some v ->
  Json.truthy v = true ->
  keyOf env2 = Some key2 ->
  generateContent env2 key2 (GeminiService.request digits p2) = Rejects e ->
  let m1 := AppMachine.settled digits env1 p1 []
              (AppMachine.reset
                 (AppMachine.submitted p1 AppMachine.start)) in
  let m2 := AppMachine.settled digits env2 p2 []
              (AppMachine.submitted p2 m1) in
  AppMachine.reachable digits m2
  /\ AppMachine.view (AppMachine.ui m1) = AppMachine.Form None
  /\ App.results (AppMachine.ui m1) = Some v
  /\ AppMachine.view (AppMachine.ui m2) = AppMachine.Dashboard v p2
  /\ App.error (AppMachine.ui m2) <> None.
Proof.
  intros Hkey1 Hreply1 Hparse Htruthy Hkey2 Hreply2. cbv zeta.
  assert (Htext : text <> EmptyString).
  { intros ->. rewrite parse_empty in Hparse. discriminate. }
  set (m0 := AppMachine.reset (AppMachine.submitted p1 AppMachine.start)).
  assert (Hui1 : AppMachine.ui (AppMachine.settled digits env1 p1 [] m0)
                 = {| App.isLoading := false; App.results := Some v;
                      App.userProfile := None; App.error := None |}).
  { destruct (settled_ui digits env1 p1 [] m0) as [-> _].
    rewrite (analyze_text_reply digits env1 p1 _ key1 text
               Hkey1 Hreply1 Htext), Hparse.
    simpl. rewrite Htruthy. reflexivity. }
  set (m1 := AppMachine.settled digits env1 p1 [] m0) in *.
  assert (Hpend1 : AppMachine.pending m1 = []).
  { unfold m1. destruct (settled_ui digits env1 p1 [] m0) as [_ ->].
    reflexivity. }
  assert (Hui2 : AppMachine.ui
                   (AppMachine.settled digits env2 p2 []
                      (AppMachine.submitted p2 m1))
                 = {| App.isLoading := false; App.results := Some v;
                      App.userProfile := Some p2;
                      App.error :=
                        Some (if messageIs e "MISSING_API_KEY"
                              then App.msgMissingKey else App.msgFailed) |}).
  { destruct (settled_ui digits env2 p2 [] (AppMachine.submitted p2 m1))
      as [-> _].
    pose proof (analyze_with_key digits env2 p2
                  (AppMachine.world (AppMachine.submitted p2 m1)) key2 Hkey2)
      as Hrun.
    cbv zeta in Hrun. rewrite Hreply2 in Hrun. rewrite Hrun. simpl.
    rewrite Hui1. reflexivity. }
  split; [ | split; [ | split; [ | split ] ] ].
  - eapply AppMachine.reach_step.
    + eapply AppMachine.reach_step.
      * eapply AppMachine.reach_step.
        -- eapply AppMachine.reach_step.
           ++ eapply AppMachine.reach_step; [ apply AppMachine.reach_start | ].
              eapply (AppMachine.Submit digits AppMachine.start p1).
              reflexivity.
           ++ apply AppMachine.Reset.
        -- apply (AppMachine.Settle digits m0 env1 p1 []). reflexivity.
      * eapply (AppMachine.Submit digits m1 p2).
        unfold AppMachine.view. rewrite Hui1. reflexivity.
    + apply (AppMachine.Settle digits (AppMachine.submitted p2 m1) env2 p2 []).
      unfold AppMachine.submitted. simpl. rewrite Hpend1. reflexivity.
  - unfold AppMachine.view. rewrite Hui1. reflexivity.
  - rewrite Hui1. reflexivity.
  - unfold AppMachine.view. rewrite Hui2. reflexivity.
  - rewrite Hui2. simpl. discriminate.
Qed.

(** X9 with a complete first reply and a network failure afterwards. *)
Lemma reset_while_loading_leaves_stale_results_witness :
  Json.parse goodText = Some goodValue
  /\ Json.truthy goodValue = true
  /\ AppMachine.view
       (AppMachine.ui
          (AppMachine.settled exactDigits
             (envWith (Val "test-key") (Rejects (Rejection "fetch failed")))
             graduate []
             (AppMachine.submitted graduate
                (AppMachine.settled exactDigits
                   (envWith (Val "test-key") (Resolves (Val goodText)))
                   experienced []
                   (AppMachine.reset
                      (AppMachine.submitted experienced
                         AppMachine.start))))))
     = AppMachine.Dashboard goodValue graduate.
Proof.
  assert (Hparse : Json.parse goodText = Some goodValue)
    by (vm_compute; reflexivity).
  split; [ exact Hparse | split; [ reflexivity | ] ].
  destruct (reset_while_loading_leaves_stale_results exactDigits
              (envWith (Val "test-key") (Resolves (Val goodText)))
              (envWith (Val "test-key") (Rejects (Rejection "fetch failed")))
              experienced graduate "test-key" "test-key" goodText goodValue
              (Rejection "fetch failed")
              eq_refl eq_refl Hparse eq_refl eq_refl eq_refl)
    as (_ & _ & _ & Hview & _).
  exact Hview.
Defined.

(* ================================================================== *)
(** ** The form: benefits and modes *)
(* ================================================================== *)

Section Form.

Lemma includes_iff (benefit : string) (selected : list string) :
  existsb (String.eqb benefit) selected = true <-> In benefit selected.
Proof.
  rewrite existsb_exists. split.
  - intros (x & Hin & Heq). apply String.eqb_eq in Heq. subst x. exact Hin.
  - intros Hin. exists benefit. split; [ exact Hin | apply String.eqb_refl ].
Qed.

Lemma in_toggle (benefit c : string) (selected : list string) :
  In c (SalaryForm.toggle benefit selected)
  <-> (c = benefit /\ ~ In benefit selected)
      \/ (c <> benefit /\ In c selected).
Proof.
  unfold SalaryForm.toggle.
  destruct (existsb (String.eqb benefit) selected) eqn:Hex.
  - apply includes_iff in Hex. rewrite filter_In. split.
    + intros [Hin Hne]. right. split; [ | exact Hin ].
      intros ->. rewrite String.eqb_refl in Hne. discriminate.
    + intros [[-> Hno] | [Hne Hin]]; [ contradiction | ].
      split; [ exact Hin | ].
      apply negb_true_iff, String.eqb_neq. exact Hne.
  - assert (Hno : ~ In benefit selected).
    { intros Hin. apply includes_iff in Hin. congruence. }
    rewrite in_app_iff. simpl. split.
    + intros [Hin | [<- | []]].
      * right. split; [ | exact Hin ]. intros ->. contradiction.
      * left. split; [ reflexivity | exact Hno ].
    + intros [[-> _] | [_ Hin]]; [ right; left; reflexivity | left; exact Hin ].
Qed.

Lemma toggle_NoDup (benefit : string) (selected : list string) :
  NoDup selected -> NoDup (SalaryForm.toggle benefit selected).
Proof.
  intros Hnd. unfold SalaryForm.toggle.
  destruct (existsb (String.eqb benefit) selected) eqn:Hex.
  - apply NoDup_filter. exact Hnd.
  - apply NoDup_app; [ exact Hnd | repeat constructor; intros [] | ].
    intros a Hin [<- | []]. apply includes_iff in Hin. congruence.
Qed.

End Form.

(** X10: toggling a benefit flips the membership of that label and of no
    other, and a selection without duplicates stays without duplicates. *)
Theorem toggle_flips_one_label (benefit : string) (selected : list string) :
  NoDup selected ->
  NoDup (SalaryForm.toggle benefit selected)
  /\ (In benefit (SalaryForm.toggle benefit selected)
      <-> ~ In benefit selected)
  /\ (forall other, other <> benefit ->
        (In other (SalaryForm.toggle benefit selected)
         <-> In other selected)).
Proof.
  intros Hnd. split; [ exact (toggle_NoDup benefit selected Hnd) | split ].
  - rewrite in_toggle. split.
    + intros [[_ Hno] | [Hne _]]; [ exact Hno | congruence ].
    + intros Hno. left. split; [ reflexivity | exact Hno ].
  - intros other Hne. rewrite in_toggle. split.
    + intros [[-> _] | [_ Hin]]; [ congruence | exact Hin ].
    + intros Hin. right. split; assumption.
Qed.

(** X10 on a selection of two labels. *)
Lemma toggle_flips_one_label_witness :
  NoDup ["Gym"; "Remote Work"]
  /\ SalaryForm.toggle "Gym" ["Gym"; "Remote Work"] = ["Remote Work"]
  /\ ~ In "Gym" (SalaryForm.toggle "Gym" ["Gym"; "Remote Work"]).
Proof.
  assert (Hnd : NoDup ["Gym"; "Remote Work"]).
  { repeat constructor; simpl; intros H; intuition discriminate. }
  split; [ exact Hnd | split; [ reflexivity | ] ].
  destruct (toggle_flips_one_label "Gym" ["Gym"; "Remote Work"] Hnd)
    as (_ & Hflip & _).
  intros Hin. apply Hflip in Hin. apply Hin. left. reflexivity.
Defined.

(** X11: ticking a benefit that was not selected and unticking it again
    gives back the very same list. *)
Theorem toggle_twice_restores (benefit : string) (selected : list string) :
  ~ In benefit selected ->
  SalaryForm.toggle benefit (SalaryForm.toggle benefit selected) = selected.
Proof.
  intros Hno.
  assert (Hfirst : SalaryForm.toggle benefit selected
                   = (selected ++ [benefit])%list).
  { unfold SalaryForm.toggle.
    destruct (existsb (String.eqb benefit) selected) eqn:Hex;
      [ | reflexivity ].
    apply includes_iff in Hex. contradiction. }
  rewrite Hfirst. unfold SalaryForm.toggle.
  assert (Hnow : existsb (String.eqb benefit) (selected ++ [benefit])%list
                 = true).
  { apply includes_iff, in_app_iff. right. left. reflexivity. }
  rewrite Hnow, filter_app. simpl. rewrite String.eqb_refl. simpl.
  rewrite app_nil_r. apply forallb_filter_id, forallb_forall.
  intros x Hin. apply negb_true_iff, String.eqb_neq. intros ->.
  contradiction.
Qed.

(** X11 on a selection of one label. *)
Lemma toggle_twice_restores_witness :
  ~ In "Gym" ["Remote Work"]
  /\ SalaryForm.toggle "Gym" (SalaryForm.toggle "Gym" ["Remote Work"])
     = ["Remote Work"].
Proof.
  assert (Hno : ~ In "Gym" ["Remote Work"]).
  { simpl. intros H. intuition discriminate. }
  split; [ exact Hno | ].
  exact (toggle_twice_restores "Gym" ["Remote Work"] Hno).
Defined.

(** X12: starting from a form whose benefits are a list without
    duplicates and whose entry-level flag agrees with its mode, no sequence
    of edits, mode switches and benefit toggles fails, and afterwards the
    benefits are still a list without duplicates and the flag still agrees
    with the mode. *)
Theorem form_keeps_benefits_and_flag
    (actions : list SalaryForm.action) (st : SalaryForm.State)
    (selected : list string) :
  benefits (SalaryForm.profile st) = Val selected ->
  NoDup selected ->
  isEntryLevel (SalaryForm.profile st)
    = Val match SalaryForm.mode st with
          | SalaryForm.entry => true
          | SalaryForm.experienced => false
          end ->
  exists st' selected',
    SalaryForm.run actions st = Some st'
    /\ benefits (SalaryForm.profile st') = Val selected'
    /\ NoDup selected'
    /\ isEntryLevel (SalaryForm.profile st')
       = Val match SalaryForm.mode st' with
             | SalaryForm.entry => true
             | SalaryForm.experienced => false
             end.
Proof.
  revert st selected.
  induction actions as [ | a rest IH ]; intros st selected Hben Hnd Hflag.
  - exists st, selected. repeat split; assumption.
  - destruct a as [ c | newMode | benefit ]; simpl.
    + apply (IH _ selected); simpl; assumption.
    + apply (IH _ selected); simpl; [ assumption | assumption | ].
      destruct newMode; reflexivity.
    + unfold SalaryForm.toggleBenefit. rewrite Hben.
      apply (IH _ (SalaryForm.toggle benefit selected)); simpl.
      * reflexivity.
      * apply toggle_NoDup. exact Hnd.
      * exact Hflag.
Qed.

(** X12 on a session that edits, switches mode and toggles. *)
Lemma form_keeps_benefits_and_flag_witness :
  exists st' selected',
    SalaryForm.run
      [SalaryForm.ToggleBenefit "Gym";
       SalaryForm.Change (SalaryForm.setMonthlyIncentive NaN);
       SalaryForm.SwitchMode SalaryForm.entry;
       SalaryForm.ToggleBenefit "Remote Work"]
      {| SalaryForm.profile := experienced;
         SalaryForm.mode := SalaryForm.experienced |}
    = Some st'
    /\ benefits (SalaryForm.profile st') = Val selected'
    /\ NoDup selected'
    /\ isEntryLevel (SalaryForm.profile st') = Val true.
Proof.
  assert (Hnd : NoDup ["Health Insurance"; "Remote Work"]).
  { repeat constructor; simpl; intros H; intuition discriminate. }
  destruct (form_keeps_benefits_and_flag
              [SalaryForm.ToggleBenefit "Gym";
               SalaryForm.Change (SalaryForm.setMonthlyIncentive NaN);
               SalaryForm.SwitchMode SalaryForm.entry;
               SalaryForm.ToggleBenefit "Remote Work"]
              {| SalaryForm.profile := experienced;
                 SalaryForm.mode := SalaryForm.experienced |}
              ["Health Insurance"; "Remote Work"] eq_refl Hnd eq_refl)
    as (st' & selected' & Hrun & Hben & Hnd' & Hflag).
  exists st', selected'.
  split; [ exact Hrun | split; [ exact Hben | split; [ exact Hnd' | ] ] ].
  rewrite Hflag. vm_compute in Hrun. injection Hrun as <-. reflexivity.
Defined.

(** X13: switching to the entry-level mode and back does not restore what
    it cleared: the monthly base salary and the years of experience are 0,
    while every other field, the other compensation figures included, is
    what it was before. *)
Theorem mode_round_trip_loses_base_and_experience (p : UserProfile) :
  let p' := SalaryForm.handleModeSwitch SalaryForm.experienced
              (SalaryForm.handleModeSwitch SalaryForm.entry p) in
  monthlyBaseSalary p' = Val (ofZ 0)
  /\ yearsExperience p' = Val (ofZ 0)
  /\ isEntryLevel p' = Val false
  /\ p' = SalaryForm.handleModeSwitch SalaryForm.experienced
            (SalaryForm.handleChange
               (SalaryForm.setYearsExperience (ofZ 0))
               (SalaryForm.handleChange
                  (SalaryForm.setMonthlyBaseSalary (ofZ 0)) p))
  /\ ResultsDashboardEntry.currentAnnual
       (SalaryForm.handleModeSwitch SalaryForm.entry p)
     = ((ofZ 0 * ofZ 12)
        + (numOr (monthlyIncentive p) (ofZ 0) * ofZ 12)
        + (numOr (monthlyOvertime p) (ofZ 0) * ofZ 12)
        + numOr (annualProfitShare p) (ofZ 0)
        + numOr (festivalBonus p) (ofZ 0)
        + numOr (providentFund p) (ofZ 0)
        + numOr (gratuity p) (ofZ 0))%js.
Proof. cbv zeta. repeat split. Qed.

(* ================================================================== *)
(** ** The feedback payload *)
(* ================================================================== *)

(** X14: the feedback payload always carries the rating, the two free
    texts and the subject line, and it names the sender exactly once: the
    trimmed address under [email] when the address is not blank, and
    otherwise the fixed [sender_status], never both and never an empty
    [email]. *)
Theorem payload_names_the_sender_once
    (digits : number -> string) (trim : string -> string)
    (f : FeedbackModal.Fields) :
  let body := FeedbackModal.payload digits trim f in
  Json.prop "rating" body = Some (Json.JNumber (FeedbackModal.rating f))
  /\ Json.prop "missing_fields" body
     = Some (Json.JString (FeedbackModal.missingFields f))
  /\ Json.prop "improvements" body
     = Some (Json.JString (FeedbackModal.improvements f))
  /\ Json.prop "_subject" body
     = Some (Json.JString
               ("New App Feedback ("
                ++ JsNumber.toString digits (FeedbackModal.rating f)
                ++ "/5 stars)"))
  /\ (FeedbackModal.email f <> EmptyString ->
      trim (FeedbackModal.email f) <> EmptyString ->
      Json.prop "email" body
        = Some (Json.JString (trim (FeedbackModal.email f)))
      /\ Json.prop "sender_status" body = None)
  /\ (FeedbackModal.email f = EmptyString
      \/ trim (FeedbackModal.email f) = EmptyString ->
      Json.prop "email" body = None
      /\ Json.prop "sender_status" body
         = Some (Json.JString "Anonymous User")).
Proof.
  cbv zeta. unfold FeedbackModal.payload.
  destruct (FeedbackModal.email f) as [ | c s ] eqn:Hmail;
    [ | destruct (trim (String c s)) as [ | c' s' ] eqn:Htrim ].
  - do 4 (split; [ reflexivity | ]). split.
    + intros Hne. congruence.
    + intros _. split; reflexivity.
  - do 4 (split; [ reflexivity | ]). split.
    + intros _ Hne. congruence.
    + intros _. split; reflexivity.
  - do 4 (split; [ reflexivity | ]). split.
    + intros _ _. split; reflexivity.
    + intros [Hblank | Hblank]; discriminate.
Qed.

(** X14 with and without an address, the engine's [trim] being the
    identity on these two. *)
Lemma payload_names_the_sender_once_witness :
  Json.prop "email"
    (FeedbackModal.payload exactDigits (fun s => s) signedFeedback)
  = Some (Json.JString "reader@example.org")
  /\ Json.prop "sender_status"
       (FeedbackModal.payload exactDigits (fun s => s) anonymousFeedback)
     = Some (Json.JString "Anonymous User").
Proof.
  destruct (payload_names_the_sender_once exactDigits (fun s => s)
              signedFeedback) as (_ & _ & _ & _ & Hsigned & _).
  destruct (payload_names_the_sender_once exactDigits (fun s => s)
              anonymousFeedback) as (_ & _ & _ & _ & _ & Hanon).
  split.
  - destruct Hsigned as [Hmail _]; [ discriminate | discriminate | ].
    exact Hmail.
  - destruct Hanon as [_ Hstatus]; [ left; reflexivity | ].
    exact Hstatus.
Defined.

(* ================================================================== *)
(** ** The later revisions of the service *)
(* ================================================================== *)

Section LaterRevisions.

Variable digits : number -> string.

Lemma numOr_idempotent (v : nullable number) :
  numOr (Val (numOr v (ofZ 0))) (ofZ 0) = numOr v (ofZ 0).
Proof.
  destruct v as [ | | x ]; try reflexivity.
  simpl. destruct (truthy x) eqn:Hx; simpl; [ rewrite Hx | ]; reflexivity.
Qed.

Lemma entry_total_of_normalised (p : UserProfile) :
  GeminiServiceEntry.totalComp (numbersNormalised p)
  = GeminiServiceEntry.totalComp p.
Proof.
  unfold GeminiServiceEntry.totalComp, GeminiServiceEntry.annualBaseSalary,
    GeminiServiceEntry.annualIncentive, GeminiServiceEntry.annualOvertime,
    GeminiServiceEntry.monthlyBase, GeminiServiceEntry.monthlyInc,
    GeminiServiceEntry.monthlyOver, GeminiServiceEntry.profitShare,
    GeminiServiceEntry.festival, GeminiServiceEntry.pf,
    GeminiServiceEntry.grat, numbersNormalised.
  cbn [monthlyBaseSalary monthlyIncentive monthlyOvertime annualProfitShare
       festivalBonus providentFund gratuity].
  rewrite !safeNum_idempotent. reflexivity.
Qed.

Lemma experienced_prompt_reads (p1 p2 : UserProfile) :
  sameExperiencedFields p1 p2 ->
  GeminiServiceEntry.experiencedPrompt digits p1
  = GeminiServiceEntry.experiencedPrompt digits p2.
Proof.
  intros (Hrole & Hyears & Hloc & Hind & Hcur & Htotal).
  unfold GeminiServiceEntry.experiencedPrompt.
  rewrite Hrole, Hyears, Hloc, Hind, Hcur, Htotal. reflexivity.
Qed.

End LaterRevisions.

(** X15: in the entry-aware revision, two profiles that are not
    entry-level and agree on role, location, industry, currency, the
    normalised years of experience and the total compensation give the same
    request: neither the breakdown of the total nor the benefits nor any
    entry-mode field reaches the service. *)
Theorem experienced_request_reads_the_total_only
    (digits : number -> string) (env : Env) (p1 p2 : UserProfile)
    (w : World) :
  truthyBool (isEntryLevel p1) = false ->
  truthyBool (isEntryLevel p2) = false ->
  sameExperiencedFields p1 p2 ->
  GeminiServiceEntry.request digits p1 = GeminiServiceEntry.request digits p2
  /\ GeminiServiceEntry.analyzeCompensation digits env p1 w
     = GeminiServiceEntry.analyzeCompensation digits env p2 w.
Proof.
  intros H1 H2 Hsame.
  assert (Hreq : GeminiServiceEntry.request digits p1
                 = GeminiServiceEntry.request digits p2).
  { unfold GeminiServiceEntry.request, GeminiServiceEntry.prompt.
    rewrite H1, H2, (experienced_prompt_reads digits p1 p2 Hsame).
    reflexivity. }
  split; [ exact Hreq | ].
  unfold GeminiServiceEntry.analyzeCompensation. rewrite Hreq. reflexivity.
Qed.

(** X15 at two profiles with the same total of 73000, grouped
    differently, with different benefits and entry-mode fields. *)
Lemma experienced_request_reads_the_total_only_witness :
  truthyBool (isEntryLevel experienced) = false
  /\ truthyBool (isEntryLevel regrouped) = false
  /\ sameExperiencedFields experienced regrouped
  /\ monthlyBaseSalary experienced <> monthlyBaseSalary regrouped
  /\ benefits experienced <> benefits regrouped
  /\ GeminiServiceEntry.request exactDigits experienced
     = GeminiServiceEntry.request exactDigits regrouped.
Proof.
  assert (Hsame : sameExperiencedFields experienced regrouped).
  { unfold sameExperiencedFields. repeat split; vm_compute; reflexivity. }
  split; [ reflexivity | split; [ reflexivity | split; [ exact Hsame | ] ] ].
  split; [ discriminate | split; [ discriminate | ] ].
  destruct (experienced_request_reads_the_total_only exactDigits
              (envWith (Val "test-key") (Resolves Undefined))
              experienced regrouped quiet eq_refl eq_refl Hsame)
    as (Hreq & _).
  exact Hreq.
Defined.

(** X16: in the entry-aware revision every Number of the prompt goes
    through [safeNum] or [|| 0] first: for every profile, in either mode,
    the request is the one of the profile whose numeric fields have been
    normalised, so a missing or NaN field reads as 0 and never as NaN. *)
Theorem entry_revision_normalises_every_number
    (digits : number -> string) (p : UserProfile) :
  GeminiServiceEntry.request digits (numbersNormalised p)
  = GeminiServiceEntry.request digits p.
Proof.
  unfold GeminiServiceEntry.request, GeminiServiceEntry.prompt.
  change (isEntryLevel (numbersNormalised p)) with (isEntryLevel p).
  destruct (truthyBool (isEntryLevel p)).
  - unfold GeminiServiceEntry.entryPrompt.
    change (expectedSalary (numbersNormalised p))
      with (Val (numOr (expectedSalary p) (ofZ 0))).
    rewrite numOr_idempotent. reflexivity.
  - unfold GeminiServiceEntry.experiencedPrompt.
    rewrite entry_total_of_normalised.
    change (yearsExperience (numbersNormalised p))
      with (Val (safeNum (yearsExperience p))).
    rewrite safeNum_idempotent. reflexivity.
Qed.

(** X17: the checklist revision likewise reads the profile's numbers
    through [safeNum] only: its request is unchanged when every numeric
    field is replaced by its normalised value, whatever the profile. *)
Theorem checklist_revision_normalises_every_number
    (digits : number -> string) (p : UserProfile) :
  GeminiServiceChecklist.request digits (numbersNormalised p)
  = GeminiServiceChecklist.request digits p.
Proof.
  unfold GeminiServiceChecklist.request, GeminiServiceChecklist.prompt,
    GeminiServiceChecklist.totalComp,
    GeminiServiceChecklist.annualBaseSalary,
    GeminiServiceChecklist.annualIncentive,
    GeminiServiceChecklist.annualOvertime,
    GeminiServiceChecklist.monthlyBase, GeminiServiceChecklist.monthlyInc,
    GeminiServiceChecklist.monthlyOver, GeminiServiceChecklist.profitShare,
    GeminiServiceChecklist.festival, GeminiServiceChecklist.pf,
    GeminiServiceChecklist.grat, numbersNormalised.
  cbn [monthlyBaseSalary monthlyIncentive monthlyOvertime annualProfitShare
       festivalBonus providentFund gratuity currentRole industry location
       currency yearsExperience].
  rewrite !safeNum_idempotent. reflexivity.
Qed.

(** X18: the two later revisions keep the control flow of the first:
    without a credential each throws the sentinel error after one console
    line and sends nothing; with one, each sends exactly one request,
    returns [null] for a reply without text, and rethrows what the client
    rejects with. *)
Theorem later_revisions_keep_the_control_flow
    (digits : number -> string) (env : Env) (profile : UserProfile)
    (w : World) :
  (keyOf env = None ->
   GeminiServiceEntry.analyzeCompensation digits env profile w
   = (Throws (Error "MISSING_API_KEY"),
      noted w (LogText "API Key is missing. Please set process.env.API_KEY."))
   /\ GeminiServiceChecklist.analyzeCompensation digits env profile w
      = (Throws (Error "MISSING_API_KEY"),
         noted w
           (LogText "API Key is missing. Please set process.env.API_KEY.")))
  /\ (forall key,
        keyOf env = Some key ->
        calls (snd (GeminiServiceEntry.analyzeCompensation
                      digits env profile w))
        = (calls w
           ++ [(key, GeminiServiceEntry.request digits profile)])%list
        /\ calls (snd (GeminiServiceChecklist.analyzeCompensation
                         digits env profile w))
           = (calls w
              ++ [(key, GeminiServiceChecklist.request digits profile)])%list
        /\ (forall text,
              generateContent env key
                (GeminiServiceEntry.request digits profile) = Resolves text ->
              noText text = true ->
              fst (GeminiServiceEntry.analyzeCompensation
                     digits env profile w) = Returns Json.JNull)
        /\ (forall text,
              generateContent env key
                (GeminiServiceChecklist.request digits profile)
                = Resolves text ->
              noText text = true ->
              fst (GeminiServiceChecklist.analyzeCompensation
                     digits env profile w) = Returns Json.JNull)
        /\ (forall e,
              generateContent env key
                (GeminiServiceEntry.request digits profile) = Rejects e ->
              fst (GeminiServiceEntry.analyzeCompensation
                     digits env profile w) = Throws e)
        /\ (forall e,
              generateContent env key
                (GeminiServiceChecklist.request digits profile) = Rejects e ->
              fst (GeminiServiceChecklist.analyzeCompensation
                     digits env profile w) = Throws e)).
Proof.
  unfold GeminiServiceEntry.analyzeCompensation,
    GeminiServiceChecklist.analyzeCompensation, getApiKey, keyOf, bind, ret,
    throw, tryCatch, callGenerateContent, consoleError, parseResponse,
    jsonParse, noted.
  destruct (API_KEY env) as [ | | [ | c s ] ]; split;
    try (intros _; split; reflexivity); try (intros key H; discriminate);
    try (intros H; discriminate).
  intros key H. injection H as <-.
  split; [ | split; [ | split; [ | split; [ | split ] ] ] ].
  - destruct (generateContent env (String c s)
                (GeminiServiceEntry.request digits profile))
      as [ [ | | [ | c' s' ] ] | e ]; simpl; try reflexivity.
    destruct (Json.parse (String c' s')); reflexivity.
  - destruct (generateContent env (String c s)
                (GeminiServiceChecklist.request digits profile))
      as [ [ | | [ | c' s' ] ] | e ]; simpl; try reflexivity.
    destruct (Json.parse (String c' s')); reflexivity.
  - intros text -> Hno.
    destruct text as [ | | [ | c' s' ] ]; try discriminate; reflexivity.
  - intros text -> Hno.
    destruct text as [ | | [ | c' s' ] ]; try discriminate; reflexivity.
  - intros e ->. reflexivity.
  - intros e ->. reflexivity.
Qed.

(** X18 without and with a credential. *)
Lemma later_revisions_keep_the_control_flow_witness :
  fst (GeminiServiceEntry.analyzeCompensation exactDigits
         (envWith Undefined (Resolves (Val goodText))) graduate quiet)
  = Throws (Error "MISSING_API_KEY")
  /\ List.length
       (calls (snd (GeminiServiceChecklist.analyzeCompensation exactDigits
                      (envWith (Val "test-key") (Resolves (Val goodText)))
                      experienced quiet)))
     = 1%nat.
Proof.
  split.
  - destruct (later_revisions_keep_the_control_flow exactDigits
                (envWith Undefined (Resolves (Val goodText))) graduate quiet)
      as (Hnone & _).
    destruct (Hnone eq_refl) as (Hentry & _). rewrite Hentry. reflexivity.
  - destruct (later_revisions_keep_the_control_flow exactDigits
                (envWith (Val "test-key") (Resolves (Val goodText)))
                experienced quiet) as (_ & Hsome).
    destruct (Hsome "test-key" eq_refl) as (_ & Hcalls & _).
    rewrite Hcalls. reflexivity.
Defined.
